(** * Verification of [src/lib/config.ts]: schema-aware coercion of
    environment strings and the build of a validated configuration.

    The development follows the source file top to bottom:
    - the JavaScript values the code manipulates (schema nodes, raw
      environment values, coerced values);
    - the string and number primitives the code calls
      ([toLowerCase], [trim], [Number]);
    - [unwrapSchema], [getPrimitiveKind], [coerceValue], [createConfig];
    - a model of the external validator, used where a statement speaks
      about the validated result;
    - the theorems.

    Modelling conventions.
    - A string is a sequence of code units below 256 (Rocq's [string]);
      the white space and the case mapping of that range are the
      ECMAScript ones.
    - A number is an IEEE-754 binary64 value, [spec_float] at precision 53
      and maximal exponent 1024.
    - A data object is the finite list of its own properties, all of them
      data: it holds no function.  The properties the source reads from a
      schema node ([_def], [typeName], [type], [innerType], [schema],
      [out]) are none of them members of [Object.prototype]; the reads of
      [metadata] and [env], whose keys are arbitrary, do see the inherited
      members, and so does the assignment to the candidate object.
    - A [throw] is a [Throw] completion; a normal return is [Normal]. *)

From Stdlib Require Import ZArith Ascii Floats.SpecFloat.
From stdpp Require Import base option list gmap strings.

Local Open Scope Z_scope.

(** ** JavaScript values *)

Abbreviation binary64 := spec_float.

#[warnings="-register-all"] Inductive JsVal : Type :=
| JUndefined
| JNull
| JBool (b : bool)
| JNum (n : binary64)
| JStr (s : string)
| JObj (props : list (string * JsVal)).

(** Thrown values. [RangeError] is the engine's "Maximum call stack size
    exceeded"; [ZodError] is the validator's structured error, a list of
    issues made of a field path and a message. *)
Record ZodIssue := { path : list string; message : string }.

Inductive JsError :=
| TypeError
| RangeError
| ZodError (issues : list ZodIssue).

Inductive Completion (A : Type) :=
| Normal (a : A)
| Throw (e : JsError).
Arguments Normal {A} a.
Arguments Throw {A} e.

Global Instance Completion_ret : MRet Completion := @Normal.
Global Instance Completion_bind : MBind Completion := λ A B f c,
  match c with
  | Normal a => f a
  | Throw e => Throw e
  end.

(** ** Strings: [String.prototype.toLowerCase] and [String.prototype.trim] *)

(** ECMAScript WhiteSpace and LineTerminator code points below 256:
    TAB, LF, VT, FF, CR, SP and NBSP. *)
Definition isWhiteSpace (c : ascii) : bool :=
  let n := N_of_ascii c in
  ((9 <=? n) && (n <=? 13) || (n =? 32) || (n =? 160))%N.

(** Lower-case mapping of the code points below 256: A-Z, and the Latin-1
    capitals U+00C0..U+00DE without the multiplication sign U+00D7. *)
Definition toLowerChar (c : ascii) : ascii :=
  let n := N_of_ascii c in
  if ((65 <=? n) && (n <=? 90) || (192 <=? n) && (n <=? 222) && negb (n =? 215))%N
  then ascii_of_N (n + 32)
  else c.

Fixpoint toLowerCase (s : string) : string :=
  match s with
  | EmptyString => EmptyString
  | String c r => String (toLowerChar c) (toLowerCase r)
  end.

Fixpoint trimStart (s : string) : string :=
  match s with
  | EmptyString => EmptyString
  | String c r => if isWhiteSpace c then trimStart r else s
  end.

Fixpoint trimEnd (s : string) : string :=
  match s with
  | EmptyString => EmptyString
  | String c r =>
      match trimEnd r with
      | EmptyString => if isWhiteSpace c then EmptyString else String c EmptyString
      | r' => String c r'
      end
  end.

Definition trim (s : string) : string := trimEnd (trimStart s).

(** A string made of white space only (the empty string included). *)
Fixpoint isBlank (s : string) : bool :=
  match s with
  | EmptyString => true
  | String c r => isWhiteSpace c && isBlank r
  end.

(** ** Numbers: the conversion [Number(value)]

    ECMAScript [StringToNumber]: the string is trimmed; the empty string
    is [+0]; a [0x], [0o] or [0b] prefix introduces an unsigned integer in
    that radix; otherwise an optional sign is followed by [Infinity] or by
    a decimal literal (digits, optional fraction, optional exponent, at
    least one digit before the exponent).  Anything else is [NaN].  The
    mathematical value of the literal is rounded to the nearest binary64,
    ties to even. *)

Definition S754_pzero : binary64 := S754_zero false.

Definition b64_of_Z (z : Z) : binary64 := binary_normalize 53 1024 z 0 false.

Definition digitValue (radix : Z) (c : ascii) : option Z :=
  let n := Z.of_N (N_of_ascii c) in
  let d := if (48 <=? n) && (n <=? 57) then Some (n - 48)
           else if (97 <=? n) && (n <=? 102) then Some (n - 87)
           else if (65 <=? n) && (n <=? 70) then Some (n - 55)
           else None in
  match d with
  | Some v => if v <? radix then Some v else None
  | None => None
  end.

(** Reads the longest prefix of digits of [s]: the value accumulated on
    [acc], the number of digits read added to [len], and the rest. *)
Fixpoint readDigits (radix : Z) (s : string) (acc len : Z) : Z * Z * string :=
  match s with
  | String c r =>
      match digitValue radix c with
      | Some d => readDigits radix r (acc * radix + d) (len + 1)
      | None => (acc, len, s)
      end
  | EmptyString => (acc, len, s)
  end.

Definition readSign (s : string) : bool * string :=
  match s with
  | String "+" r => (false, r)
  | String "-" r => (true, r)
  | _ => (false, s)
  end.

(** An optional exponent part that must reach the end of the string. *)
Definition readExponent (s : string) : option Z :=
  match s with
  | EmptyString => Some 0
  | String c r =>
      if Ascii.eqb c "e" || Ascii.eqb c "E" then
        let '(neg, r1) := readSign r in
        let '(v, n, r2) := readDigits 10 r1 0 0 in
        if (0 <? n) && String.eqb r2 "" then Some (if neg then - v else v)
        else None
      else None
  end.

(** The binary64 nearest to [(-1)^neg * m * 10^e10]. *)
Definition roundDecimal (neg : bool) (m e10 : Z) : binary64 :=
  match m with
  | Z0 => S754_zero neg
  | Zpos p =>
      if 0 <=? e10
      then binary_round 53 1024 neg (p * Z.to_pos (10 ^ e10)) 0
      else SFdiv 53 1024 (S754_finite neg p 0)
                         (S754_finite false (Z.to_pos (10 ^ (- e10))) 0)
  | Zneg _ => S754_nan
  end.

Definition StrUnsignedDecimalLiteral (neg : bool) (s : string) : binary64 :=
  if String.eqb s "Infinity" then S754_infinity neg else
  let '(i, ni, r1) := readDigits 10 s 0 0 in
  let '(m, nf, r2) :=
    match r1 with
    | String "." r => readDigits 10 r i 0
    | _ => (i, 0, r1)
    end in
  if ni + nf =? 0 then S754_nan else
  match readExponent r2 with
  | Some e => roundDecimal neg m (e - nf)
  | None => S754_nan
  end.

Definition NonDecimalIntegerLiteral (radix : Z) (digits : string) : binary64 :=
  let '(v, n, r) := readDigits radix digits 0 0 in
  if (0 <? n) && String.eqb r "" then b64_of_Z v else S754_nan.

Definition StringToNumber (s : string) : binary64 :=
  match trim s with
  | EmptyString => S754_pzero
  | String "0" (String "x" r) | String "0" (String "X" r) =>
      NonDecimalIntegerLiteral 16 r
  | String "0" (String "o" r) | String "0" (String "O" r) =>
      NonDecimalIntegerLiteral 8 r
  | String "0" (String "b" r) | String "0" (String "B" r) =>
      NonDecimalIntegerLiteral 2 r
  | t => let '(neg, r) := readSign t in StrUnsignedDecimalLiteral neg r
  end.

(** [ToNumber].  An object of the model is a plain record of data, taken
    to have no own [toString] property: its primitive value is the string
    ["[object Object]"], hence [NaN]. *)
Definition ToNumber (v : JsVal) : binary64 :=
  match v with
  | JUndefined => S754_nan
  | JNull => S754_pzero
  | JBool b => if b then b64_of_Z 1 else S754_pzero
  | JNum n => n
  | JStr s => StringToNumber s
  | JObj _ => S754_nan
  end.

(** [z.coerce.number().safeParse(value)] of the validation library: the
    input is converted with [Number], and the result is accepted when it
    is a number other than [NaN].  Release 4 of the library rejects the
    infinities as well, release 3 accepts them; the source supports both
    releases.  [Some n] is [{success: true, data: n}]. *)
Inductive ZodVersion := Zod3 | Zod4.

Definition coerceNumberSafeParse (ver : ZodVersion) (value : JsVal) : option binary64 :=
  match ToNumber value with
  | S754_nan => None
  | S754_infinity s =>
      match ver with
      | Zod3 => Some (S754_infinity s)
      | Zod4 => None
      end
  | n => Some n
  end.

(** ** Truthiness, property access and strict equality *)

(** [ToBoolean]. *)
Definition truthy (v : JsVal) : bool :=
  match v with
  | JUndefined | JNull => false
  | JBool b => b
  | JNum (S754_zero _) | JNum S754_nan => false
  | JNum _ => true
  | JStr s => negb (String.eqb s "")
  | JObj _ => true
  end.

(** Own property of a property list, [undefined] when there is none. *)
Fixpoint lookupProp (key : string) (props : list (string * JsVal)) : JsVal :=
  match props with
  | [] => JUndefined
  | (k, v) :: rest => if String.eqb k key then v else lookupProp key rest
  end.

(** [v.key] (or [v[key]]).  Reading a property of [undefined] or [null]
    throws a TypeError; a primitive has none of the properties the source
    reads. *)
Definition getProp (v : JsVal) (key : string) : Completion JsVal :=
  match v with
  | JUndefined | JNull => Throw TypeError
  | JObj props => Normal (lookupProp key props)
  | JBool _ | JNum _ | JStr _ => Normal JUndefined
  end.

(** [v === 'literal']. *)
Definition strictEqStr (v : JsVal) (literal : string) : bool :=
  match v with
  | JStr s => String.eqb s literal
  | _ => false
  end.

(** [v.key] for a value known not to be [undefined] or [null]. *)
Definition propOf (v : JsVal) (key : string) : JsVal :=
  match v with
  | JObj props => lookupProp key props
  | _ => JUndefined
  end.

(** [a || b], with [b] evaluated only when [a] is falsy. *)
Definition orElse (a : JsVal) (b : Completion JsVal) : Completion JsVal :=
  if truthy a then Normal a else b.

(** Nesting depth of a value. *)
Fixpoint height (v : JsVal) : nat :=
  match v with
  | JObj props => S (foldr (λ p acc, Nat.max (height p.2) acc) 0%nat props)
  | _ => 0%nat
  end.

(** ** [unwrapSchema] (config.ts, lines 4-35) *)

(** One activation of [unwrapSchema]; [self] is the recursive call. *)
Definition unwrapSchema_body (self : JsVal → Completion JsVal) (schema : JsVal)
  : Completion JsVal :=
  if negb (truthy schema) then Normal schema else
  d ← getProp schema "_def";
  if negb (truthy d) then Normal schema else
  def ← getProp schema "_def";
  tn ← getProp def "typeName";
  typeName ← orElse tn (getProp def "type");
  if strictEqStr typeName "ZodOptional" || strictEqStr typeName "ZodNullable"
     || strictEqStr typeName "optional" || strictEqStr typeName "nullable" then
    innerType ← getProp def "innerType";
    if truthy innerType then self innerType else Normal schema
  else if strictEqStr typeName "ZodDefault" || strictEqStr typeName "default"
     || strictEqStr typeName "ZodCatch" || strictEqStr typeName "catch"
     || strictEqStr typeName "ZodReadonly" || strictEqStr typeName "readonly" then
    innerType ← getProp def "innerType";
    if truthy innerType then self innerType else Normal schema
  else if strictEqStr typeName "ZodEffects" || strictEqStr typeName "effects" then
    innerSchema ← getProp def "schema";
    if truthy innerSchema then self innerSchema else Normal schema
  else if strictEqStr typeName "ZodPipeline" || strictEqStr typeName "pipeline" then
    out ← getProp def "out";
    if truthy out then self out else Normal schema
  else Normal schema.

(** The recursion, bounded by the depth of the call stack: a call that
    needs more than [depth] nested activations ends in the engine's
    RangeError. *)
Fixpoint unwrapSchema_rec (depth : nat) (schema : JsVal) : Completion JsVal :=
  match depth with
  | O => Throw RangeError
  | S d => unwrapSchema_body (unwrapSchema_rec d) schema
  end.

(** A schema node is a finite tree, and every recursive call descends two
    levels into it ([_def], then the inner node): a stack as deep as the
    node is enough (lemma [unwrapSchema_rec_enough]). *)
Definition unwrapSchema (schema : JsVal) : Completion JsVal :=
  unwrapSchema_rec (S (height schema)) schema.

(** ** [getPrimitiveKind] (config.ts, lines 37-49) *)

Inductive PrimitiveKind := KNumber | KBoolean | KString | KOther.

Definition getPrimitiveKind (schema : JsVal) : Completion PrimitiveKind :=
  unwrapped ← unwrapSchema schema;
  if negb (truthy unwrapped) then Normal KOther else
  d ← getProp unwrapped "_def";
  if negb (truthy d) then Normal KOther else
  def ← getProp unwrapped "_def";
  tn ← getProp def "typeName";
  typeName ← orElse tn (getProp def "type");
  if strictEqStr typeName "ZodNumber" || strictEqStr typeName "number" then Normal KNumber
  else if strictEqStr typeName "ZodBoolean" || strictEqStr typeName "boolean" then Normal KBoolean
  else if strictEqStr typeName "ZodString" || strictEqStr typeName "string" then Normal KString
  else Normal KOther.

(** ** [coerceValue] (config.ts, lines 51-71) *)

(** [value.toLowerCase()]: defined on strings; on any other value the
    member is missing ([undefined] and [null] excluded, whose property
    access already throws) and the call throws a TypeError. *)
Definition callToLowerCase (value : JsVal) : Completion string :=
  match value with
  | JStr s => Normal (toLowerCase s)
  | _ => Throw TypeError
  end.

Definition coerceValue (ver : ZodVersion) (schema value : JsVal) : Completion JsVal :=
  match value with
  | JUndefined => Normal JUndefined
  | _ =>
      kind ← getPrimitiveKind schema;
      match kind with
      | KNumber =>
          match coerceNumberSafeParse ver value with
          | Some data => Normal (JNum data)
          | None => Normal value
          end
      | KBoolean =>
          l ← callToLowerCase value;
          let lower := trim l in
          if String.eqb lower "true" || String.eqb lower "1" || String.eqb lower "yes"
          then Normal (JBool true)
          else if String.eqb lower "false" || String.eqb lower "0"
                  || String.eqb lower "no" || String.eqb lower ""
          then Normal (JBool false)
          else Normal value
      | _ => Normal value
      end
  end.

(** ** [createConfig] (config.ts, lines 73-97) *)

(** *** Plain objects and what they inherit

    [metadata], [env] and the candidate object [initial] are ordinary
    objects whose prototype is [Object.prototype]: a read [o[key]] returns
    the own entry when there is one and the member of [Object.prototype]
    of that name otherwise, and an assignment goes through the inherited
    [__proto__] setter.  The built-in objects such a read can return are
    not data: they are kept apart from [JsVal]. *)
Inductive Builtin :=
| ObjectPrototype
| NativeFunction (name : string).

(** The member of [Object.prototype] of a given name: [Object] under
    [constructor], [Object.prototype] itself through the [__proto__]
    getter, and a native function under the other names. *)
Definition inheritedMember (key : string) : option Builtin :=
  if String.eqb key "__proto__" then Some ObjectPrototype
  else if String.eqb key "constructor" then Some (NativeFunction "Object")
  else if bool_decide (key ∈ ["__defineGetter__"; "__defineSetter__"; "hasOwnProperty";
                              "__lookupGetter__"; "__lookupSetter__"; "isPrototypeOf";
                              "propertyIsEnumerable"; "toString"; "valueOf";
                              "toLocaleString"])
  then Some (NativeFunction key)
  else None.

(** The string a built-in converts to when it is used as a property key
    (Node prints a native function as below). *)
Definition builtinToString (b : Builtin) : string :=
  match b with
  | ObjectPrototype => "[object Object]"
  | NativeFunction name => "function " +:+ name +:+ "() { [native code] }"
  end.

(** A value read from a plain object: a data value or a built-in. *)
Inductive Value :=
| Data (v : JsVal)
| Native (b : Builtin).

(** [o[key]]: the own entry, else the inherited member, else [undefined]. *)
Definition getMember (o : gmap string JsVal) (key : string) : Value :=
  match o !! key with
  | Some v => Data v
  | None =>
      match inheritedMember key with
      | Some b => Native b
      | None => Data JUndefined
      end
  end.

(** [const envVarName = metadata[key]; if (!envVarName) continue], and the
    property key under which [env[envVarName]] then reads.  [metadata] has
    its declared type, [Partial<Record<keyof T, string>>]: an own entry is
    a string, falsy when empty; without an own entry the read returns the
    member of [Object.prototype] named [key], a truthy object that the
    property access converts to a string, or [undefined].  [None] is the
    [continue].  (An own entry holding [undefined], which [Partial] also
    admits, is not represented: the mappings of the model are those whose
    own entries are strings.) *)
Definition envVarNameOf (metadata : gmap string string) (key : string) : option string :=
  match metadata !! key with
  | Some EmptyString => None
  | Some envVarName => Some envVarName
  | None => builtinToString <$> inheritedMember key
  end.

(** [coerceValue] (lines 51-71) on a value read from the environment.  On
    a built-in, [value === undefined] is false; on a number field
    [Number(value)] is NaN (the built-in converts to a string that is no
    numeric literal), so the parse fails and the value is returned; on a
    boolean field [value.toLowerCase] is [undefined] and the call throws a
    TypeError; on any other field the value is returned. *)
Definition coerceRawValue (ver : ZodVersion) (schema : JsVal) (rawValue : Value)
  : Completion Value :=
  match rawValue with
  | Data value => coerced ← coerceValue ver schema value; Normal (Data coerced)
  | Native b =>
      kind ← getPrimitiveKind schema;
      match kind with
      | KBoolean => Throw TypeError
      | _ => Normal (Native b)
      end
  end.

(** The candidate object [initial]: its own entries and its prototype,
    [Object.prototype] when it is created. *)
Record Candidate := {
  entries : gmap string Value;
  prototype : Value
}.

Definition emptyObject : Candidate :=
  {| entries := ∅; prototype := Native ObjectPrototype |}.

(** What the prototype chain makes of the assignment of a key the object
    does not own: an own property is created; or the inherited [__proto__]
    setter runs; or the assignment is rejected, a TypeError in a module
    (strict code), because the chain holds the key as a read-only property
    or with a setter that throws. *)
Inductive Assignment := CreatesProperty | SetsPrototype | Rejected.

Definition objectPrototypeAssignment (key : string) : Assignment :=
  if String.eqb key "__proto__" then SetsPrototype else CreatesProperty.

(** The chain that starts at [p]: [null] ends it; a plain data object
    holds writable properties and continues with [Object.prototype]; a
    native function has the read-only [length] and [name] (and [prototype]
    for the constructor [Object]) and continues with [Function.prototype],
    whose [arguments] and [caller] have the throwing setter, then with
    [Object.prototype]. *)
Definition inheritedAssignment (p : Value) (key : string) : Assignment :=
  match p with
  | Data (JObj props) =>
      if bool_decide (key ∈ props.*1) then CreatesProperty
      else objectPrototypeAssignment key
  | Data _ => CreatesProperty
  | Native ObjectPrototype => objectPrototypeAssignment key
  | Native (NativeFunction f) =>
      if bool_decide (key ∈ ["length"; "name"; "arguments"; "caller"])
         || (String.eqb f "Object" && String.eqb key "prototype")
      then Rejected
      else objectPrototypeAssignment key
  end.

(** The argument of the [__proto__] setter that it acts upon. *)
Definition isObjectOrNull (v : Value) : bool :=
  match v with
  | Data (JObj _) | Data JNull | Native _ => true
  | Data _ => false
  end.

(** [initial[key] = coerced] (line 92). *)
Definition setMember (initial : Candidate) (key : string) (coerced : Value)
  : Completion Candidate :=
  match entries initial !! key with
  | Some _ =>
      Normal {| entries := <[key := coerced]> (entries initial);
                prototype := prototype initial |}
  | None =>
      match inheritedAssignment (prototype initial) key with
      | CreatesProperty =>
          Normal {| entries := <[key := coerced]> (entries initial);
                    prototype := prototype initial |}
      | SetsPrototype =>
          if isObjectOrNull coerced
          then Normal {| entries := entries initial; prototype := coerced |}
          else Normal initial
      | Rejected => Throw TypeError
      end
  end.

(** The schema object handed to [createConfig]: its [shape], an ordered
    mapping from field name to field schema, and its [parse] method, the
    external validator, which is given the candidate object and returns
    the validated object or throws. *)
Record ZodObject := {
  shape : list (string * JsVal);
  parse : Candidate → Completion (gmap string JsVal)
}.

(** [Object.keys(shape)]. *)
Definition objectKeys (o : list (string * JsVal)) : list string := o.*1.

(** One iteration of the loop over the keys; [initial] is the candidate
    object built so far.  A [continue] leaves it as it is.  [env] is
    declared [Record<string, string | undefined>]; its own values are kept
    as run-time values, so that statements about values of another type
    can be made.  [shape[key]] is an own property of the shape, [key]
    being one of its keys. *)
Definition createConfig_iteration (ver : ZodVersion) (shape : list (string * JsVal))
    (metadata : gmap string string) (env : gmap string JsVal)
    (initial : Candidate) (key : string)
  : Completion Candidate :=
  match envVarNameOf metadata key with
  | None => Normal initial
  | Some envVarName =>
      let rawValue := getMember env envVarName in
      let fieldSchema := lookupProp key shape in
      if negb (truthy fieldSchema) then Normal initial else
      coerced ← coerceRawValue ver fieldSchema rawValue;
      match coerced with
      | Data JUndefined => Normal initial
      | _ => setMember initial key coerced
      end
  end.

Fixpoint createConfig_loop (ver : ZodVersion) (shape : list (string * JsVal))
    (metadata : gmap string string) (env : gmap string JsVal)
    (initial : Candidate) (keys : list string)
  : Completion Candidate :=
  match keys with
  | [] => Normal initial
  | key :: rest =>
      initial' ← createConfig_iteration ver shape metadata env initial key;
      createConfig_loop ver shape metadata env initial' rest
  end.

(** The candidate object as it stands when the loop ends. *)
Definition candidateObject (ver : ZodVersion) (schema : ZodObject)
    (metadata : gmap string string) (env : gmap string JsVal)
  : Completion Candidate :=
  createConfig_loop ver (shape schema) metadata env emptyObject (objectKeys (shape schema)).

Definition createConfig (ver : ZodVersion) (schema : ZodObject)
    (metadata : gmap string string) (env : gmap string JsVal)
  : Completion (gmap string JsVal) :=
  initial ← candidateObject ver schema metadata env;
  parse schema initial.

(** ** The external validator *)

Module Zod.

(** The validation library ([zod]) is a dependency of the repository, not
    part of it: the source only reads the nodes it builds and calls the
    [parse] method of the schema object.  The spec describes it as the
    component that, given the candidate object, applies type checks,
    default substitution and constraint enforcement, and reports failures
    as a structured error of (field path, message) entries.  The model
    covers the declarations the repository's examples use: [z.number()]
    with [.int()] and [.positive()], [z.string()] with [.min(n)],
    [z.boolean()], [.optional()], [.nullable()], [.default(v)] and
    [z.object({...})]. *)

(** Modelled from the spec: the constraints of a number and of a string
    declaration of the external validator. *)
Inductive NumberCheck := int | positive.

Inductive StringCheck := min (n : nat).

(** Modelled from the spec: the field declarations of the external
    validator, a primitive under any number of modifiers. *)
Inductive ZodType :=
| number (checks : list NumberCheck)
| string (checks : list StringCheck)
| boolean
| optional (innerType : ZodType)
| nullable (innerType : ZodType)
| default (innerType : ZodType) (defaultValue : JsVal).

(** The type tag under [_def]: [typeName] in release 3, [type] in
    release 4. *)
Definition tagged (ver : ZodVersion) (name3 name4 : String.string)
    (rest : list (String.string * JsVal)) : JsVal :=
  JObj [("_def",
         JObj (match ver with
               | Zod3 => ("typeName", JStr name3)
               | Zod4 => ("type", JStr name4)
               end :: rest))].

(** The object a declaration evaluates to, as far as introspection can
    see it. *)
Fixpoint node (ver : ZodVersion) (t : ZodType) : JsVal :=
  match t with
  | number _ => tagged ver "ZodNumber" "number" []
  | string _ => tagged ver "ZodString" "string" []
  | boolean => tagged ver "ZodBoolean" "boolean" []
  | optional i => tagged ver "ZodOptional" "optional" [("innerType", node ver i)]
  | nullable i => tagged ver "ZodNullable" "nullable" [("innerType", node ver i)]
  | default i d =>
      tagged ver "ZodDefault" "default" [("innerType", node ver i); ("defaultValue", d)]
  end.

Inductive ParseResult :=
| Valid (value : JsVal)
| Invalid (messages : list String.string).

Definition isInteger (n : binary64) : bool :=
  match n with
  | S754_zero _ => true
  | S754_finite _ m e => (0 <=? e) || (Zpos m mod 2 ^ (- e) =? 0)
  | _ => false
  end.

Definition numberCheck (n : binary64) (c : NumberCheck) : list String.string :=
  match c with
  | int => if isInteger n then [] else ["Expected integer"]
  | positive => if SFltb S754_pzero n then [] else ["Number must be greater than 0"]
  end.

Definition stringCheck (s : String.string) (c : StringCheck) : list String.string :=
  match c with
  | min n => if (n <=? String.length s)%nat then [] else ["String is too short"]
  end.

Definition checked (v : JsVal) (messages : list String.string) : ParseResult :=
  match messages with
  | [] => Valid v
  | _ => Invalid messages
  end.

Definition invalidType (input : JsVal) : ParseResult :=
  match input with
  | JUndefined => Invalid ["Required"]
  | _ => Invalid ["Invalid type"]
  end.

(** Modelled from the spec: the external validator on one value, type
    check first, then the constraints; [JUndefined] stands for a field the
    candidate object does not have.  A default replaces an
    absent value; release 3 then validates the default against the inner
    declaration, release 4 returns it as it is. *)
Fixpoint parseType (ver : ZodVersion) (t : ZodType) (input : JsVal) : ParseResult :=
  match t with
  | number checks =>
      match input with
      | JNum S754_nan => invalidType input
      | JNum (S754_infinity s) =>
          match ver with
          | Zod3 => checked input (flat_map (numberCheck (S754_infinity s)) checks)
          | Zod4 => invalidType input
          end
      | JNum n => checked input (flat_map (numberCheck n) checks)
      | _ => invalidType input
      end
  | string checks =>
      match input with
      | JStr s => checked input (flat_map (stringCheck s) checks)
      | _ => invalidType input
      end
  | boolean =>
      match input with
      | JBool _ => Valid input
      | _ => invalidType input
      end
  | optional i =>
      match input with
      | JUndefined => Valid JUndefined
      | _ => parseType ver i input
      end
  | nullable i =>
      match input with
      | JNull => Valid JNull
      | _ => parseType ver i input
      end
  | default i d =>
      match input with
      | JUndefined =>
          match ver with
          | Zod3 => parseType ver i d
          | Zod4 => Valid d
          end
      | _ => parseType ver i input
      end
  end.

(** Modelled from the spec: the external validator on a value read from
    the candidate object; no declaration of the model accepts a built-in. *)
Definition parseValue (ver : ZodVersion) (t : ZodType) (input : Value) : ParseResult :=
  match input with
  | Data v => parseType ver t v
  | Native _ => Invalid ["Invalid type"]
  end.

(** Modelled from the spec: the external validator on the candidate
    object, which the spec describes as a mapping from field name to
    value: the entries of the object, field by field in declaration
    order.  All issues are collected, unknown keys are dropped, and a field
    whose validated value is [undefined] is left out of the result. *)
Fixpoint parseFields (ver : ZodVersion) (fields : list (String.string * ZodType))
    (data : gmap String.string Value)
  : list ZodIssue * gmap String.string JsVal :=
  match fields with
  | [] => ([], ∅)
  | (key, t) :: rest =>
      let '(issues, out) := parseFields ver rest data in
      match parseValue ver t (from_option id (Data JUndefined) (data !! key)) with
      | Invalid messages =>
          (map (λ m, {| path := [key]; message := m |}) messages ++ issues, out)
      | Valid JUndefined => (issues, out)
      | Valid v => (issues, <[key := v]> out)
      end
  end.

Definition parseObject (ver : ZodVersion) (fields : list (String.string * ZodType))
    (data : Candidate) : Completion (gmap String.string JsVal) :=
  match parseFields ver fields (entries data) with
  | ([], out) => Normal out
  | (issues, _) => Throw (ZodError issues)
  end.

(** Modelled from the spec: [z.object({...})], the schema object with the
    nodes of its fields as [shape] and the external validator as [parse]. *)
Definition object (ver : ZodVersion) (fields : list (String.string * ZodType)) : ZodObject :=
  {| shape := map (λ f, (f.1, node ver f.2)) fields;
     parse := parseObject ver fields |}.

(** The primitive a declaration is about, under its modifiers. *)
Fixpoint innermost (t : ZodType) : ZodType :=
  match t with
  | optional i | nullable i | default i _ => innermost i
  | _ => t
  end.

Definition kind (t : ZodType) : PrimitiveKind :=
  match innermost t with
  | number _ => KNumber
  | boolean => KBoolean
  | string _ => KString
  | _ => KOther
  end.

End Zod.

(** ** The scenario of the repository's example ([src/lib/tests/example.ts]) *)

Definition exampleFields : list (string * Zod.ZodType) :=
  [("port", Zod.number [Zod.int; Zod.positive]);
   ("host", Zod.default (Zod.string []) (JStr "localhost"));
   ("debug", Zod.default Zod.boolean (JBool false))].

Definition exampleSchema (ver : ZodVersion) : ZodObject := Zod.object ver exampleFields.

Definition validMetadata : gmap string string :=
  {[ "port" := "APP_PORT"; "host" := "APP_HOST"; "debug" := "DEBUG" ]}.

Definition partialMetadata : gmap string string := {[ "port" := "APP_PORT" ]}.

Definition exampleEnv : gmap string JsVal :=
  {[ "APP_PORT" := JStr "3000"; "APP_HOST" := JStr "example.com"; "DEBUG" := JStr "true" ]}.


(** ** Descriptions used in the statements: the wrapper layer of a node,
    the kind of an unwrapped node, the names and values of the declared
    types.  The lemmas of the next part relate them to the code. *)

(** [def.typeName || def.type]. *)
Definition typeTag (def : JsVal) : JsVal :=
  if truthy (propOf def "typeName") then propOf def "typeName" else propOf def "type".

(** The property under which a wrapper of the given tag keeps the node it
    wraps; [None] for a tag that is not a wrapper's. *)
Definition wrapperSlot (typeName : JsVal) : option string :=
  if strictEqStr typeName "ZodOptional" || strictEqStr typeName "ZodNullable"
     || strictEqStr typeName "optional" || strictEqStr typeName "nullable"
     || strictEqStr typeName "ZodDefault" || strictEqStr typeName "default"
     || strictEqStr typeName "ZodCatch" || strictEqStr typeName "catch"
     || strictEqStr typeName "ZodReadonly" || strictEqStr typeName "readonly"
  then Some "innerType"
  else if strictEqStr typeName "ZodEffects" || strictEqStr typeName "effects"
  then Some "schema"
  else if strictEqStr typeName "ZodPipeline" || strictEqStr typeName "pipeline"
  then Some "out"
  else None.

(** The node one wrapper layer below [schema], when [schema] is a wrapper
    that has one. *)
Definition wrappedNode (schema : JsVal) : option JsVal :=
  let def := propOf schema "_def" in
  if truthy schema && truthy def then
    match wrapperSlot (typeTag def) with
    | Some slot => if truthy (propOf def slot) then Some (propOf def slot) else None
    | None => None
    end
  else None.

(** The kind read off an unwrapped node. *)
Definition kindOfNode (unwrapped : JsVal) : PrimitiveKind :=
  let def := propOf unwrapped "_def" in
  if truthy unwrapped && truthy def then
    let typeName := typeTag def in
    if strictEqStr typeName "ZodNumber" || strictEqStr typeName "number" then KNumber
    else if strictEqStr typeName "ZodBoolean" || strictEqStr typeName "boolean" then KBoolean
    else if strictEqStr typeName "ZodString" || strictEqStr typeName "string" then KString
    else KOther
  else KOther.

(** A name that [if (!envVarName) continue] rejects: no entry, or the
    empty string. *)

(** An environment of the declared type [Record<string, string | undefined>]:
    each own value is a string or [undefined]. *)
Definition isEnvValue (v : JsVal) : bool :=
  match v with
  | JUndefined | JStr _ => true
  | _ => false
  end.

(** The value the loop of [createConfig] assigns for a field, when it
    assigns one: [metadata[key]] is truthy, the schema node is truthy, and
    the coerced value is not [undefined]. *)
Definition candidateEntry (ver : ZodVersion) (shape : list (string * JsVal))
    (metadata : gmap string string) (env : gmap string JsVal) (key : string)
  : option Value :=
  match envVarNameOf metadata key with
  | None => None
  | Some envVarName =>
      if truthy (lookupProp key shape) then
        match coerceRawValue ver (lookupProp key shape) (getMember env envVarName) with
        | Normal (Data JUndefined) | Throw _ => None
        | Normal coerced => Some coerced
        end
      else None
  end.

(** A declared field of boolean kind whose variable name, own or
    inherited, finds no own entry in the environment but a member of
    [Object.prototype]. *)
Definition inheritedBooleanRead (shape : list (string * JsVal))
    (metadata : gmap string string) (env : gmap string JsVal) (key : string) : Prop :=
  ∃ name b, envVarNameOf metadata key = Some name
    ∧ env !! name = None ∧ inheritedMember name = Some b
    ∧ truthy (lookupProp key shape) = true
    ∧ getPrimitiveKind (lookupProp key shape) = Normal KBoolean.

(** A value that is the given one or sits in it, under properties. *)
Inductive nestedIn : JsVal → JsVal → Prop :=
| nested_here v : nestedIn v v
| nested_property r key v props :
    (key, v) ∈ props → nestedIn r v → nestedIn r (JObj props).

(** A non-empty string of decimal digits, and the integer it writes. *)
Fixpoint isDecimalDigits (s : string) : bool :=
  match s with
  | EmptyString => true
  | String c r =>
      match digitValue 10 c with
      | Some _ => isDecimalDigits r
      | None => false
      end
  end.

Fixpoint decimalValue (acc : Z) (s : string) : Z :=
  match s with
  | EmptyString => acc
  | String c r =>
      match digitValue 10 c with
      | Some d => decimalValue (acc * 10 + d) r
      | None => acc
      end
  end.

(** * Properties *)

(** ** Strings *)

Lemma trimStart_blank s : isBlank s = true → trimStart s = EmptyString.
Proof.
  induction s as [|c r IH]; simpl; [done|].
  intros [Hc Hr]%andb_prop. rewrite Hc. auto.
Qed.

Lemma trim_blank s : isBlank s = true → trim s = EmptyString.
Proof. intros H. unfold trim. by rewrite trimStart_blank. Qed.

Example trim_toLowerCase_samples :
  trim "  a b  " = "a b"
  ∧ trim (String (ascii_of_N 9) (String "Y" (String (ascii_of_N 160) (String (ascii_of_N 10) "")))) = "Y"
  ∧ trim "   " = ""
  ∧ toLowerCase "TrUe" = "true"
  ∧ toLowerCase (String (ascii_of_N 201) "COLE") = String (ascii_of_N 233) "cole"
  ∧ toLowerCase (String (ascii_of_N 215) "") = String (ascii_of_N 215) "".
Proof. repeat split. Qed.

(** ** Property reads *)

Lemma getProp_truthy v key : truthy v = true → getProp v key = Normal (propOf v key).
Proof. by destruct v. Qed.

Lemma lookupProp_height key props :
  (height (lookupProp key props) ≤ foldr (λ p acc, Nat.max (height p.2) acc) 0 props)%nat.
Proof.
  induction props as [|[k v] rest IH]; simpl; [lia|].
  destruct (String.eqb k key); lia.
Qed.

Lemma propOf_height v key : truthy (propOf v key) = true → (height (propOf v key) < height v)%nat.
Proof.
  destruct v as [| | | | |props]; simpl; try done.
  intros _. pose proof (lookupProp_height key props). lia.
Qed.

(** ** One activation of [unwrapSchema] *)

Lemma unwrapSchema_body_wrappedNode self schema :
  unwrapSchema_body self schema =
  match wrappedNode schema with
  | Some inner => self inner
  | None => Normal schema
  end.
Proof.
  unfold unwrapSchema_body, wrappedNode.
  destruct (truthy schema) eqn:Hs; simpl; [|done].
  rewrite (getProp_truthy _ _ Hs). cbn.
  destruct (truthy (propOf schema "_def")) eqn:Hd; simpl; [|done].
  rewrite !(getProp_truthy _ _ Hd). cbn.
  unfold orElse, typeTag, wrapperSlot.
  destruct (truthy (propOf (propOf schema "_def") "typeName")); cbn;
    repeat (match goal with
            | |- context [strictEqStr ?a ?b] => destruct (strictEqStr a b); cbn
            end); try done;
    match goal with
    | |- context [truthy ?a] => by destruct (truthy a)
    end.
Qed.

Lemma wrappedNode_height schema inner :
  wrappedNode schema = Some inner → (S (S (height inner)) ≤ height schema)%nat.
Proof.
  unfold wrappedNode.
  destruct (truthy schema); simpl; [|done].
  destruct (truthy (propOf schema "_def")) eqn:Hd; [|done].
  destruct (wrapperSlot _) as [slot|]; [|done].
  destruct (truthy (propOf _ slot)) eqn:Hi; [|done].
  intros [= <-].
  apply propOf_height in Hd, Hi. lia.
Qed.

(** ** [unwrapSchema]: termination, equation, fixed points *)

(** A stack deeper than the node gives the result of [unwrapSchema],
    whatever its depth. *)
Lemma unwrapSchema_rec_enough depth schema :
  (height schema < depth)%nat →
  unwrapSchema_rec depth schema = unwrapSchema schema.
Proof.
  unfold unwrapSchema.
  remember (S (height schema)) as d' eqn:Hd'.
  assert (Hlt : (height schema < d')%nat) by lia. clear Hd'.
  revert schema d' Hlt.
  induction depth as [|depth IH]; intros schema d' Hlt Hdepth; [lia|].
  destruct d' as [|d']; [lia|]. simpl.
  rewrite !unwrapSchema_body_wrappedNode.
  destruct (wrappedNode schema) as [inner|] eqn:Hw; [|done].
  apply wrappedNode_height in Hw. apply IH; lia.
Qed.

Lemma unwrapSchema_eq schema :
  unwrapSchema schema =
  match wrappedNode schema with
  | Some inner => unwrapSchema inner
  | None => Normal schema
  end.
Proof.
  unfold unwrapSchema at 1. simpl.
  rewrite unwrapSchema_body_wrappedNode.
  destruct (wrappedNode schema) as [inner|] eqn:Hw; [|done].
  apply wrappedNode_height in Hw. apply unwrapSchema_rec_enough. lia.
Qed.

(** Induction along the wrapper layers of a node. *)
Lemma wrapper_ind (P : JsVal → Prop) :
  (∀ schema, wrappedNode schema = None → P schema) →
  (∀ schema inner, wrappedNode schema = Some inner → P inner → P schema) →
  ∀ schema, P schema.
Proof.
  intros Hbase Hstep schema.
  remember (height schema) as n eqn:Hn.
  assert (Hle : (height schema ≤ n)%nat) by lia. clear Hn.
  revert schema Hle.
  induction n as [|n IH]; intros schema Hle.
  - destruct (wrappedNode schema) as [inner|] eqn:Hw; [|by apply Hbase].
    apply wrappedNode_height in Hw. lia.
  - destruct (wrappedNode schema) as [inner|] eqn:Hw; [|by apply Hbase].
    apply (Hstep _ _ Hw), IH. apply wrappedNode_height in Hw. lia.
Qed.

Lemma unwrapSchema_returns schema : ∃ r, unwrapSchema schema = Normal r.
Proof.
  induction schema as [schema Hw|schema inner Hw [r Hr]] using wrapper_ind;
    rewrite unwrapSchema_eq, Hw; eauto.
Qed.

(** The node returned has no wrapper layer left to remove. *)
Lemma unwrapSchema_innermost schema r :
  unwrapSchema schema = Normal r → wrappedNode r = None.
Proof.
  induction schema as [schema Hw|schema inner Hw IH] using wrapper_ind;
    rewrite unwrapSchema_eq, Hw; [by intros [= <-]|done].
Qed.

Lemma unwrapSchema_fixed schema : wrappedNode schema = None → unwrapSchema schema = Normal schema.
Proof. intros Hw. by rewrite unwrapSchema_eq, Hw. Qed.

(** ** [getPrimitiveKind] *)

Lemma getPrimitiveKind_eq schema :
  getPrimitiveKind schema = (unwrapped ← unwrapSchema schema; Normal (kindOfNode unwrapped)).
Proof.
  unfold getPrimitiveKind.
  destruct (unwrapSchema schema) as [u|e]; cbn; [|done].
  unfold kindOfNode.
  destruct (truthy u) eqn:Hu; simpl; [|done].
  rewrite (getProp_truthy _ _ Hu). cbn.
  destruct (truthy (propOf u "_def")) eqn:Hd; simpl; [|done].
  rewrite !(getProp_truthy _ _ Hd). cbn.
  unfold orElse, typeTag.
  destruct (truthy (propOf (propOf u "_def") "typeName")); cbn;
    repeat (match goal with
            | |- context [strictEqStr ?a ?b] => destruct (strictEqStr a b); cbn
            end); done.
Qed.

Lemma getPrimitiveKind_returns schema : ∃ kind, getPrimitiveKind schema = Normal kind.
Proof.
  rewrite getPrimitiveKind_eq.
  destruct (unwrapSchema_returns schema) as [r ->]. cbn. eauto.
Qed.

(** The nodes the validator builds are classified by the primitive they
    declare, whatever modifiers wrap it and whichever release tagged them. *)
Lemma zod_node_unwrap ver t :
  unwrapSchema (Zod.node ver t) = Normal (Zod.node ver (Zod.innermost t)).
Proof.
  induction t as [checks|checks| |i IH|i IH|i IH d]; simpl;
    rewrite unwrapSchema_eq; try (by destruct ver);
    (replace (wrappedNode _) with (Some (Zod.node ver i));
     [done|by destruct ver, i]).
Qed.

Lemma zod_node_kind ver t : getPrimitiveKind (Zod.node ver t) = Normal (Zod.kind t).
Proof.
  rewrite getPrimitiveKind_eq, zod_node_unwrap. cbn. f_equal.
  unfold Zod.kind. by destruct (Zod.innermost t), ver.
Qed.

(** ** [Number] on a few strings *)

Example StringToNumber_samples :
  StringToNumber "3000" = b64_of_Z 3000
  ∧ StringToNumber " 8080 " = b64_of_Z 8080
  ∧ StringToNumber "0x1F" = b64_of_Z 31
  ∧ StringToNumber "-12.5e1" = b64_of_Z (-125)
  ∧ StringToNumber ".5" = S754_finite false 4503599627370496 (-53)
  ∧ StringToNumber "0.1" = S754_finite false 7205759403792794 (-56)
  ∧ StringToNumber "-0" = S754_zero true
  ∧ StringToNumber "1e400" = S754_infinity false
  ∧ StringToNumber "4.9e-324" = S754_finite false 1 (-1074)
  ∧ StringToNumber "12 apples" = S754_nan
  ∧ StringToNumber "1,5" = S754_nan
  ∧ StringToNumber "." = S754_nan.
Proof. repeat split; vm_compute; reflexivity. Qed.

Example coerceNumberSafeParse_samples :
  coerceNumberSafeParse Zod3 (JStr "abc") = None
  ∧ coerceNumberSafeParse Zod3 (JStr "Infinity") = Some (S754_infinity false)
  ∧ coerceNumberSafeParse Zod4 (JStr "Infinity") = None
  ∧ coerceNumberSafeParse Zod4 (JStr "") = Some S754_pzero
  ∧ coerceNumberSafeParse Zod4 (JBool true) = Some (b64_of_Z 1)
  ∧ coerceNumberSafeParse Zod4 JNull = Some S754_pzero.
Proof. repeat split. Qed.

(** ** [coerceValue] on strings *)

Lemma coerceValue_string_eq ver schema value :
  coerceValue ver schema (JStr value) =
  (kind ← getPrimitiveKind schema;
   match kind with
   | KNumber =>
       Normal (match coerceNumberSafeParse ver (JStr value) with
               | Some data => JNum data
               | None => JStr value
               end)
   | KBoolean =>
       let lower := trim (toLowerCase value) in
       Normal (if bool_decide (lower ∈ ["true"; "1"; "yes"]) then JBool true
               else if bool_decide (lower ∈ ["false"; "0"; "no"; ""]) then JBool false
               else JStr value)
   | _ => Normal (JStr value)
   end).
Proof.
  unfold coerceValue.
  destruct (getPrimitiveKind schema) as [[]|]; cbn; try done.
  - by destruct (coerceNumberSafeParse ver (JStr value)).
  - set (lower := trim (toLowerCase value)).
    destruct (String.eqb_spec lower "true") as [->|?]; [done|].
    destruct (String.eqb_spec lower "1") as [->|?]; [done|].
    destruct (String.eqb_spec lower "yes") as [->|?]; [done|].
    destruct (String.eqb_spec lower "false") as [->|?]; [done|].
    destruct (String.eqb_spec lower "0") as [->|?]; [done|].
    destruct (String.eqb_spec lower "no") as [->|?]; [done|].
    destruct (String.eqb_spec lower "") as [->|?]; [done|].
    rewrite !bool_decide_eq_false_2; [done|rewrite !elem_of_cons, elem_of_nil; tauto..].
Qed.

Lemma coerceValue_string_returns ver schema value :
  ∃ v, coerceValue ver schema (JStr value) = Normal v.
Proof.
  rewrite coerceValue_string_eq.
  destruct (getPrimitiveKind_returns schema) as [[] ->]; cbn; eauto.
Qed.

(** ** The loop of [createConfig] *)

Lemma envVarNameOf_own metadata key name :
  metadata !! key = Some name → name ≠ EmptyString → envVarNameOf metadata key = Some name.
Proof. unfold envVarNameOf. intros ->. by destruct name. Qed.

Lemma envVarNameOf_empty metadata key :
  metadata !! key = Some EmptyString → envVarNameOf metadata key = None.
Proof. unfold envVarNameOf. by intros ->. Qed.

Lemma envVarNameOf_Some metadata key name :
  envVarNameOf metadata key = Some name →
  (metadata !! key = Some name ∧ name ≠ EmptyString)
  ∨ (metadata !! key = None ∧ ∃ b, inheritedMember key = Some b ∧ name = builtinToString b).
Proof.
  unfold envVarNameOf. destruct (metadata !! key) as [[|c s]|]; [done| |].
  - intros [= <-]. by left.
  - destruct (inheritedMember key) as [b|]; [|done]. intros [= <-]. right. eauto.
Qed.

Lemma objectPrototypeAssignment_sets key :
  objectPrototypeAssignment key = SetsPrototype → key = "__proto__".
Proof.
  unfold objectPrototypeAssignment. by destruct (String.eqb_spec key "__proto__").
Qed.

Lemma inheritedAssignment_sets p key :
  inheritedAssignment p key = SetsPrototype → key = "__proto__".
Proof.
  destruct p as [[]|[]]; simpl; try done; try apply objectPrototypeAssignment_sets;
    case_match; try done; apply objectPrototypeAssignment_sets.
Qed.

(** An assignment touches the entry of its key, and no other. *)
Lemma setMember_other initial key v initial' k :
  setMember initial key v = Normal initial' → k ≠ key →
  entries initial' !! k = entries initial !! k.
Proof.
  unfold setMember. intros H Hk.
  destruct (entries initial !! key); [injection H as <-; simpl; by rewrite lookup_insert_ne|].
  destruct (inheritedAssignment _ _); [| |done].
  - injection H as <-. simpl. by rewrite lookup_insert_ne.
  - destruct (isObjectOrNull v); by injection H as <-.
Qed.

(** An assignment that returns leaves the entry as it was or holding the
    value assigned; under a key other than [__proto__] it holds the value. *)
Lemma setMember_entry initial key v initial' :
  setMember initial key v = Normal initial' →
  (entries initial' !! key = Some v
   ∨ (key = "__proto__" ∧ entries initial' !! key = entries initial !! key)).
Proof.
  unfold setMember. intros H.
  destruct (entries initial !! key) eqn:Hown;
    [injection H as <-; simpl; left; apply lookup_insert_eq|].
  destruct (inheritedAssignment _ _) eqn:Ha; [| |done].
  - injection H as <-. simpl. left. apply lookup_insert_eq.
  - right. split; [by eapply inheritedAssignment_sets|].
    destruct (isObjectOrNull v); by injection H as <-.
Qed.

(** While the prototype is [Object.prototype], an assignment under a key
    other than [__proto__] creates the entry and leaves the prototype. *)
Lemma setMember_plain initial key v :
  prototype initial = Native ObjectPrototype → key ≠ "__proto__" →
  setMember initial key v =
    Normal {| entries := <[key := v]> (entries initial);
              prototype := Native ObjectPrototype |}.
Proof.
  intros Hp Hk. unfold setMember. rewrite Hp. simpl.
  unfold objectPrototypeAssignment.
  destruct (String.eqb_spec key "__proto__"); [done|].
  by destruct (entries initial !! key).
Qed.

Section Loop.
Context (ver : ZodVersion) (fieldSchemas : list (string * JsVal)).
Context (metadata : gmap string string) (env : gmap string JsVal).

Lemma createConfig_iteration_skip initial key :
  envVarNameOf metadata key = None →
  createConfig_iteration ver fieldSchemas metadata env initial key = Normal initial.
Proof. unfold createConfig_iteration. by intros ->. Qed.

(** An iteration writes under its own key only. *)
Lemma createConfig_iteration_other initial key initial' k :
  createConfig_iteration ver fieldSchemas metadata env initial key = Normal initial' →
  k ≠ key → entries initial' !! k = entries initial !! k.
Proof.
  unfold createConfig_iteration. intros H Hk.
  destruct (envVarNameOf metadata key) as [name|]; [|by simplify_eq].
  destruct (negb _); [by simplify_eq|].
  destruct (coerceRawValue _ _ _) as [coerced|]; cbn in H; [|done].
  destruct coerced as [[]|]; try (by eapply setMember_other); by simplify_eq.
Qed.

(** What an iteration leaves under its own key. *)
Lemma createConfig_iteration_entry initial key initial' :
  createConfig_iteration ver fieldSchemas metadata env initial key = Normal initial' →
  match candidateEntry ver fieldSchemas metadata env key with
  | Some v =>
      entries initial' !! key = Some v
      ∨ (key = "__proto__" ∧ entries initial' !! key = entries initial !! key)
  | None => initial' = initial
  end.
Proof.
  unfold createConfig_iteration, candidateEntry.
  destruct (envVarNameOf metadata key) as [name|]; [|by intros [= <-]].
  destruct (truthy _); simpl; [|by intros [= <-]].
  destruct (coerceRawValue _ _ _) as [coerced|]; cbn; [|done].
  destruct coerced as [[]|]; try apply setMember_entry. by intros [= <-].
Qed.

Lemma createConfig_loop_skipped keys initial candidate k :
  envVarNameOf metadata k = None →
  createConfig_loop ver fieldSchemas metadata env initial keys = Normal candidate →
  entries candidate !! k = entries initial !! k.
Proof.
  intros Hk. revert initial.
  induction keys as [|key rest IH]; intros initial; simpl; [by intros [= <-]|].
  destruct (createConfig_iteration _ _ _ _ initial key) as [initial'|] eqn:Hit;
    cbn; [|done].
  intros Hloop. rewrite (IH _ Hloop).
  destruct (decide (k = key)) as [->|Hne].
  - rewrite createConfig_iteration_skip in Hit by done. by simplify_eq.
  - by eapply createConfig_iteration_other.
Qed.

(** The entry of a field other than [__proto__] when the loop ends. *)
Lemma createConfig_loop_lookup keys initial candidate k :
  createConfig_loop ver fieldSchemas metadata env initial keys = Normal candidate →
  k ≠ "__proto__" →
  entries candidate !! k =
    if decide (k ∈ keys)
    then match candidateEntry ver fieldSchemas metadata env k with
         | Some v => Some v
         | None => entries initial !! k
         end
    else entries initial !! k.
Proof.
  intros Hloop Hk. revert initial Hloop.
  induction keys as [|key rest IH]; intros initial; simpl.
  { by intros [= <-]. }
  destruct (createConfig_iteration _ _ _ _ initial key) as [initial'|] eqn:Hit;
    cbn; [|done].
  intros Hloop. rewrite (IH _ Hloop).
  destruct (decide (k = key)) as [->|Hne].
  - apply createConfig_iteration_entry in Hit.
    case_decide as Hin1; case_decide as Hin2;
      try (by exfalso; apply Hin2, list_elem_of_here);
      destruct (candidateEntry _ _ _ _ key) as [v|];
      try done; try (by destruct Hit as [?|[? _]]); by subst.
  - rewrite (createConfig_iteration_other _ _ _ _ Hit Hne).
    case_decide as Hin1; case_decide as Hin2; try done.
    + exfalso. by apply Hin2, list_elem_of_further.
    + exfalso. by apply elem_of_cons in Hin2 as [?|?].
Qed.

(** Every entry was in the object before the loop or is the value the
    loop assigns for its field. *)
Lemma createConfig_loop_origin keys initial candidate k v :
  createConfig_loop ver fieldSchemas metadata env initial keys = Normal candidate →
  entries candidate !! k = Some v →
  entries initial !! k = Some v
  ∨ (k ∈ keys ∧ candidateEntry ver fieldSchemas metadata env k = Some v).
Proof.
  revert initial. induction keys as [|key rest IH]; intros initial; simpl.
  { intros [= <-]. by left. }
  destruct (createConfig_iteration _ _ _ _ initial key) as [initial'|] eqn:Hit;
    cbn; [|done].
  intros Hloop Hv. destruct (IH _ Hloop Hv) as [Hv'|[Hin Hentry]].
  - destruct (decide (k = key)) as [->|Hne].
    + apply createConfig_iteration_entry in Hit.
      destruct (candidateEntry _ _ _ _ key) as [w|] eqn:Hentry.
      * destruct Hit as [Hw|[_ Hsame]].
        -- right. split; [apply list_elem_of_here|congruence].
        -- left. congruence.
      * left. by subst.
    + left. by rewrite <- (createConfig_iteration_other _ _ _ _ Hit Hne).
  - right. split; [by apply list_elem_of_further|done].
Qed.

(** While no field is named [__proto__] the prototype of the object stays
    [Object.prototype], and an iteration throws only from the coercion. *)
Lemma createConfig_iteration_plain initial key :
  prototype initial = Native ObjectPrototype → key ≠ "__proto__" →
  createConfig_iteration ver fieldSchemas metadata env initial key =
  match envVarNameOf metadata key with
  | None => Normal initial
  | Some name =>
      if truthy (lookupProp key fieldSchemas) then
        match coerceRawValue ver (lookupProp key fieldSchemas) (getMember env name) with
        | Normal (Data JUndefined) => Normal initial
        | Normal coerced =>
            Normal {| entries := <[key := coerced]> (entries initial);
                      prototype := Native ObjectPrototype |}
        | Throw e => Throw e
        end
      else Normal initial
  end.
Proof.
  intros Hp Hk. unfold createConfig_iteration.
  destruct (envVarNameOf metadata key) as [name|]; [|done].
  destruct (truthy _); simpl; [|done].
  destruct (coerceRawValue _ _ _) as [coerced|]; cbn; [|done].
  destruct coerced as [[]|]; by rewrite ?setMember_plain.
Qed.

Lemma createConfig_iteration_plain_prototype initial key initial' :
  prototype initial = Native ObjectPrototype → key ≠ "__proto__" →
  createConfig_iteration ver fieldSchemas metadata env initial key = Normal initial' →
  prototype initial' = Native ObjectPrototype.
Proof.
  intros Hp Hk. rewrite createConfig_iteration_plain by done.
  destruct (envVarNameOf metadata key) as [name|]; [|by intros [= <-]].
  destruct (truthy _); [|by intros [= <-]].
  destruct (coerceRawValue _ _ _) as [[[]|]|]; by intros [= <-].
Qed.

Lemma createConfig_loop_plain_prototype keys initial candidate :
  prototype initial = Native ObjectPrototype → "__proto__" ∉ keys →
  createConfig_loop ver fieldSchemas metadata env initial keys = Normal candidate →
  prototype candidate = Native ObjectPrototype.
Proof.
  revert initial. induction keys as [|key rest IH]; intros initial Hp Hk; simpl.
  { by intros [= <-]. }
  apply not_elem_of_cons in Hk as [Hne Hk].
  destruct (createConfig_iteration _ _ _ _ initial key) as [initial'|] eqn:Hit;
    cbn; [|done].
  apply IH; [|done]. by eapply createConfig_iteration_plain_prototype.
Qed.
End Loop.

(** The loop reads the mapping through [metadata[key]] only. *)
Lemma createConfig_loop_ext ver fieldSchemas metadata metadata' env keys initial :
  (∀ key, key ∈ keys → envVarNameOf metadata key = envVarNameOf metadata' key) →
  createConfig_loop ver fieldSchemas metadata env initial keys =
  createConfig_loop ver fieldSchemas metadata' env initial keys.
Proof.
  revert initial. induction keys as [|key rest IH]; intros initial Hm; simpl; [done|].
  assert (createConfig_iteration ver fieldSchemas metadata env initial key =
          createConfig_iteration ver fieldSchemas metadata' env initial key) as ->.
  { unfold createConfig_iteration. by rewrite (Hm key (list_elem_of_here _ _)). }
  destruct (createConfig_iteration _ _ metadata' _ _ _); cbn; [|done].
  apply IH. intros k Hk. apply Hm. by apply list_elem_of_further.
Qed.

(** ** The validator *)

(** A value the validator accepts, other than an absent one, comes back
    as it went in. *)
Lemma zod_parseType_defined ver t input r :
  input ≠ JUndefined → Zod.parseType ver t input = Zod.Valid r → r = input.
Proof.
  assert (Hchecked : ∀ v ms, Zod.checked v ms = Zod.Valid r → r = v).
  { intros v [|m ms]; simpl; congruence. }
  assert (Hinvalid : ∀ v, Zod.invalidType v = Zod.Valid r → r = v).
  { by intros []. }
  induction t as [checks|checks| |i IH|i IH|i IH d]; simpl; intros Hdef.
  - destruct input as [| | |[]| |]; try done; try apply Hchecked.
    destruct ver; [apply Hchecked|done].
  - destruct input; try done; apply Hchecked.
  - destruct input; try done; congruence.
  - destruct input; try done; by apply IH.
  - destruct input; try (by apply IH). congruence.
  - destruct input; try done; by apply IH.
Qed.


(** * The claims *)

(** C1.  Scenario A of the repository's example: for the schema
    [{port: z.number().int().positive(), host: z.string().default("localhost"),
    debug: z.boolean().default(false)}], the mapping [{port: "APP_PORT",
    host: "APP_HOST", debug: "DEBUG"}] and the environment [{APP_PORT: "3000",
    APP_HOST: "example.com", DEBUG: "true"}], the candidate object handed to
    the validator (a plain object with exactly these entries) and the value
    [createConfig] returns are both [{port: 3000, host: "example.com",
    debug: true}], with a numeric port and a boolean flag, under either
    release of the validator. *)
Theorem createConfig_example ver :
  candidateObject ver (exampleSchema ver) validMetadata exampleEnv =
    Normal {| entries := {[ "port" := Data (JNum (b64_of_Z 3000));
                            "host" := Data (JStr "example.com");
                            "debug" := Data (JBool true) ]};
              prototype := Native ObjectPrototype |}
  ∧ createConfig ver (exampleSchema ver) validMetadata exampleEnv =
    Normal {[ "port" := JNum (b64_of_Z 3000);
              "host" := JStr "example.com";
              "debug" := JBool true ]}.
Proof. destruct ver; split; vm_compute; reflexivity. Qed.

(** C2.  On a field classified as boolean, a present raw string is
    lower-cased and trimmed; ["true"], ["1"] and ["yes"] give the boolean
    [true]; ["false"], ["0"], ["no"] and the empty string give the boolean
    [false]; every other string is returned as it is. *)
Theorem coerceValue_boolean ver schema value :
  getPrimitiveKind schema = Normal KBoolean →
  let lower := trim (toLowerCase value) in
  (lower ∈ ["true"; "1"; "yes"] →
     coerceValue ver schema (JStr value) = Normal (JBool true))
  ∧ (lower ∈ ["false"; "0"; "no"; ""] →
     coerceValue ver schema (JStr value) = Normal (JBool false))
  ∧ (lower ∉ ["true"; "1"; "yes"; "false"; "0"; "no"; ""] →
     coerceValue ver schema (JStr value) = Normal (JStr value)).
Proof.
  intros Hkind lower. rewrite coerceValue_string_eq, Hkind. cbn. fold lower.
  split; [|split]; intros H.
  - by rewrite bool_decide_eq_true_2.
  - rewrite bool_decide_eq_false_2, bool_decide_eq_true_2; [done..|].
    intros H'. revert H H'. rewrite !elem_of_cons, !elem_of_nil.
    intros [->|[->|[->|[->|[]]]]]; intros [?|[?|[?|[]]]]; done.
  - rewrite !bool_decide_eq_false_2; [done|..];
      intros H'; apply H; revert H'; rewrite !elem_of_cons, !elem_of_nil; tauto.
Qed.

Lemma coerceValue_boolean_witness :
  getPrimitiveKind (Zod.node Zod3 Zod.boolean) = Normal KBoolean
  ∧ coerceValue Zod3 (Zod.node Zod3 Zod.boolean) (JStr " Yes ") = Normal (JBool true)
  ∧ coerceValue Zod3 (Zod.node Zod3 Zod.boolean) (JStr "maybe") = Normal (JStr "maybe").
Proof.
  split; [reflexivity|]. split.
  - apply (coerceValue_boolean Zod3 (Zod.node Zod3 Zod.boolean) " Yes "); [reflexivity|].
    apply (bool_decide_unpack _). reflexivity.
  - apply (coerceValue_boolean Zod3 (Zod.node Zod3 Zod.boolean) "maybe"); [reflexivity|].
    apply (bool_decide_unpack _). reflexivity.
Defined.

(** C3.  On a field classified as number, a present raw string that the
    coercing numeric parse accepts is replaced by the parsed number, and a
    string it rejects is returned unchanged; ["3000"] gives the number
    3000 and ["3.14"] the binary64 number 3.14 (0x1.91eb851eb851fp+1). *)
Theorem coerceValue_number ver schema :
  getPrimitiveKind schema = Normal KNumber →
  (∀ value n, coerceNumberSafeParse ver (JStr value) = Some n →
     coerceValue ver schema (JStr value) = Normal (JNum n))
  ∧ (∀ value, coerceNumberSafeParse ver (JStr value) = None →
     coerceValue ver schema (JStr value) = Normal (JStr value))
  ∧ coerceValue ver schema (JStr "3000") = Normal (JNum (b64_of_Z 3000))
  ∧ coerceValue ver schema (JStr "3.14") =
      Normal (JNum (S754_finite false 7070651414971679 (-51))).
Proof.
  intros Hkind.
  repeat split; intros; rewrite coerceValue_string_eq, Hkind; cbn;
    try match goal with H : coerceNumberSafeParse _ _ = _ |- _ => by rewrite H end;
    by destruct ver.
Qed.

Lemma coerceValue_number_witness :
  getPrimitiveKind (Zod.node Zod4 (Zod.optional (Zod.number []))) = Normal KNumber
  ∧ coerceValue Zod4 (Zod.node Zod4 (Zod.optional (Zod.number []))) (JStr "3.14") =
      Normal (JNum (S754_finite false 7070651414971679 (-51)))
  ∧ coerceValue Zod4 (Zod.node Zod4 (Zod.optional (Zod.number []))) (JStr "12 apples") =
      Normal (JStr "12 apples").
Proof.
  split; [reflexivity|].
  destruct (coerceValue_number Zod4 (Zod.node Zod4 (Zod.optional (Zod.number []))))
    as (_ & Hfail & _ & Hpi); [reflexivity|].
  split; [exact Hpi|]. apply Hfail. reflexivity.
Defined.

(** C9.  On a field classified as number, a present raw string that is
    empty or made of white space only is coerced to the number [+0]: the
    numeric parse accepts it, and the string is not passed through. *)
Theorem coerceValue_number_blank ver schema value :
  getPrimitiveKind schema = Normal KNumber →
  isBlank value = true →
  coerceValue ver schema (JStr value) = Normal (JNum S754_pzero).
Proof.
  intros Hkind Hblank. rewrite coerceValue_string_eq, Hkind. cbn.
  unfold coerceNumberSafeParse, ToNumber, StringToNumber.
  by rewrite (trim_blank _ Hblank).
Qed.

Lemma coerceValue_number_blank_witness :
  getPrimitiveKind (Zod.node Zod3 (Zod.number [Zod.int])) = Normal KNumber
  ∧ isBlank "  " = true
  ∧ coerceValue Zod3 (Zod.node Zod3 (Zod.number [Zod.int])) (JStr "  ") =
      Normal (JNum S754_pzero).
Proof.
  split; [reflexivity|]. split; [reflexivity|].
  apply (coerceValue_number_blank Zod3 (Zod.node Zod3 (Zod.number [Zod.int])) "  ");
    reflexivity.
Defined.

(** C5.  [unwrapSchema] returns normally on every input, [null],
    [undefined] and malformed nodes included, with no TypeError from a
    property read and no stack overflow; it returns the node it was given
    when the node is falsy, has no usable [_def], carries a tag that is
    not a wrapper's, or is a wrapper whose inner node is missing. *)
Theorem unwrapSchema_never_throws schema :
  (∃ r, unwrapSchema schema = Normal r)
  ∧ (truthy schema = false → unwrapSchema schema = Normal schema)
  ∧ (truthy (propOf schema "_def") = false → unwrapSchema schema = Normal schema)
  ∧ (wrapperSlot (typeTag (propOf schema "_def")) = None →
       unwrapSchema schema = Normal schema)
  ∧ (∀ slot, wrapperSlot (typeTag (propOf schema "_def")) = Some slot →
       truthy (propOf (propOf schema "_def") slot) = false →
       unwrapSchema schema = Normal schema).
Proof.
  split; [apply unwrapSchema_returns|].
  split; [|split; [|split]].
  - intros Hs. apply unwrapSchema_fixed. unfold wrappedNode. by rewrite Hs.
  - intros Hd. apply unwrapSchema_fixed. unfold wrappedNode.
    by rewrite Hd, andb_false_r.
  - intros Htag. apply unwrapSchema_fixed. unfold wrappedNode.
    rewrite Htag. by destruct (_ && _).
  - intros slot Htag Hinner. apply unwrapSchema_fixed. unfold wrappedNode.
    rewrite Htag, Hinner. by destruct (_ && _).
Qed.

(** C6.  A schema node is a finite tree, so its wrapper layers are
    acyclic: every recursive call of [unwrapSchema] is on a strictly
    shallower node, the recursion ends on any call stack deeper than the
    node, with one result whatever the depth, and unwrapping is
    idempotent: unwrapping the result gives the result again. *)
Theorem unwrapSchema_terminates_idempotent schema :
  (∀ inner, wrappedNode schema = Some inner → (height inner < height schema)%nat)
  ∧ ∃ r, (∀ depth, (height schema < depth)%nat →
            unwrapSchema_rec depth schema = Normal r)
       ∧ unwrapSchema schema = Normal r
       ∧ unwrapSchema r = Normal r
       ∧ (unwrapSchema schema ≫= unwrapSchema) = unwrapSchema schema.
Proof.
  split.
  { intros inner Hw. apply wrappedNode_height in Hw. lia. }
  destruct (unwrapSchema_returns schema) as [r Hr]. exists r.
  assert (unwrapSchema r = Normal r) as Hrr.
  { apply unwrapSchema_fixed. by eapply unwrapSchema_innermost. }
  repeat split; [|done..|by rewrite Hr].
  intros depth Hd. by rewrite unwrapSchema_rec_enough.
Qed.

(** C8, as the code has it.  A value that is not a string is outside the
    declared parameter type [string | undefined]; coercion returns it
    unchanged when the field is classified as number and the value is a
    number, and when the field is classified as string or other, whatever
    the value; the validator then returns a value it accepts as it
    received it. *)
Theorem coerceValue_native_unchanged ver schema kind value :
  getPrimitiveKind schema = Normal kind →
  (kind = KNumber ∧ ∃ n, value = JNum n) ∨ kind = KString ∨ kind = KOther →
  coerceValue ver schema value = Normal value
  ∧ ∀ t r, value ≠ JUndefined → Zod.parseType ver t value = Zod.Valid r → r = value.
Proof.
  intros Hkind Hcase. split; [|intros t r; apply zod_parseType_defined].
  unfold coerceValue. rewrite Hkind.
  destruct Hcase as [[-> [n ->]]|[->| ->]]; cbn.
  - unfold coerceNumberSafeParse. simpl. by destruct n, ver.
  - by destruct value.
  - by destruct value.
Qed.

Lemma coerceValue_native_unchanged_witness :
  getPrimitiveKind (Zod.node Zod3 (Zod.number [])) = Normal KNumber
  ∧ coerceValue Zod3 (Zod.node Zod3 (Zod.number [])) (JNum (b64_of_Z 8080)) =
      Normal (JNum (b64_of_Z 8080))
  ∧ Zod.parseType Zod3 (Zod.number []) (JNum (b64_of_Z 8080)) =
      Zod.Valid (JNum (b64_of_Z 8080)).
Proof.
  split; [reflexivity|]. split; [|reflexivity].
  apply (coerceValue_native_unchanged Zod3 (Zod.node Zod3 (Zod.number []))
           KNumber (JNum (b64_of_Z 8080))); [reflexivity|].
  left. split; [reflexivity|]. by eexists.
Defined.

(** C8, as the claim states it, fails: on a field classified as boolean a
    native boolean is not returned unchanged; [value.toLowerCase] is not
    a function and the call throws a TypeError. *)
Lemma coerceValue_native_boolean_throws :
  getPrimitiveKind (Zod.node Zod3 Zod.boolean) = Normal KBoolean
  ∧ coerceValue Zod3 (Zod.node Zod3 Zod.boolean) (JBool true) = Throw TypeError
  ∧ coerceValue Zod3 (Zod.node Zod3 Zod.boolean) (JBool true) ≠ Normal (JBool true).
Proof. repeat split. discriminate. Qed.

(** C7, at an input where the code departs from it.  With the schema of
    the example, the mapping [{port: "APP_PORT", host: "APP_HOST",
    debug: "toString"}] and the environment [{APP_PORT: "3000"}], all of
    the declared types, [env["toString"]] is the function inherited from
    [Object.prototype]; [coerceValue] calls [toLowerCase] on it and
    [createConfig] throws a TypeError, which is not the validator's
    error: the validator is not even called. *)
Theorem createConfig_inherited_variable_throws ver :
  map_Forall (λ _ v, isEnvValue v = true) ({[ "APP_PORT" := JStr "3000" ]} : gmap string JsVal)
  ∧ candidateObject ver (exampleSchema ver) (<[ "debug" := "toString" ]> validMetadata)
      {[ "APP_PORT" := JStr "3000" ]} = Throw TypeError
  ∧ createConfig ver (exampleSchema ver) (<[ "debug" := "toString" ]> validMetadata)
      {[ "APP_PORT" := JStr "3000" ]} = Throw TypeError.
Proof.
  split; [by apply map_Forall_singleton|].
  destruct ver; split; vm_compute; reflexivity.
Qed.

(** C4, at an input where the code departs from it.  The schema declares
    one field, named [toString], with the default ["d"]; the mapping is
    empty; the environment holds one variable, whose name is the text of
    the function [Object.prototype.toString].  [metadata["toString"]] is
    that inherited function, which is truthy, so the field is not
    skipped: the variable is read, the candidate object gets the entry
    [toString: "pwned"], and the value returned for the field is
    ["pwned"], not the declared default. *)
Theorem createConfig_unmapped_inherited_name ver :
  (∅ : gmap string string) !! "toString" = None
  ∧ candidateObject ver
      (Zod.object ver [("toString", Zod.default (Zod.string []) (JStr "d"))]) ∅
      {[ "function toString() { [native code] }" := JStr "pwned" ]}
    = Normal {| entries := {[ "toString" := Data (JStr "pwned") ]};
                prototype := Native ObjectPrototype |}
  ∧ createConfig ver
      (Zod.object ver [("toString", Zod.default (Zod.string []) (JStr "d"))]) ∅
      {[ "function toString() { [native code] }" := JStr "pwned" ]}
    = Normal {[ "toString" := JStr "pwned" ]}.
Proof. split; [done|]. destruct ver; split; vm_compute; reflexivity. Qed.

(** C10.  A field whose mapping entry is the empty string is skipped: its
    iteration leaves the candidate object as it is whatever the
    environment holds (an entry under the empty name included), so the
    environment is not consulted for it, and the candidate object has no
    entry for the field.  For a field whose name is not that of a member
    of [Object.prototype], this is what happens without a mapping entry:
    the candidate object and the outcome of the call are those obtained
    with the entry removed from the mapping.  The own entries of the
    mapping are strings, and the empty string is the one falsy string. *)
Theorem createConfig_empty_name ver schema metadata env key :
  metadata !! key = Some EmptyString →
  (∀ env' initial,
     createConfig_iteration ver (shape schema) metadata env' initial key = Normal initial)
  ∧ (∀ candidate,
       candidateObject ver schema metadata env = Normal candidate →
       entries candidate !! key = None)
  ∧ (inheritedMember key = None →
       candidateObject ver schema metadata env =
         candidateObject ver schema (delete key metadata) env
       ∧ createConfig ver schema metadata env =
           createConfig ver schema (delete key metadata) env).
Proof.
  intros Hname.
  pose proof (envVarNameOf_empty _ _ Hname) as Hskip.
  split; [|split].
  - intros env' initial. by apply createConfig_iteration_skip.
  - intros candidate Hc.
    by rewrite (createConfig_loop_skipped _ _ _ _ _ _ _ key Hskip Hc).
  - intros Hplain.
    assert (Hsame : candidateObject ver schema metadata env =
                    candidateObject ver schema (delete key metadata) env).
    { apply createConfig_loop_ext. intros k _. unfold envVarNameOf.
      destruct (decide (k = key)) as [->|Hne].
      - by rewrite Hname, lookup_delete_eq, Hplain.
      - by rewrite lookup_delete_ne. }
    split; [exact Hsame|]. unfold createConfig. by rewrite Hsame.
Qed.

Lemma createConfig_empty_name_witness :
  (<[ "host" := EmptyString ]> validMetadata : gmap string string) !! "host" = Some EmptyString
  ∧ inheritedMember "host" = None
  ∧ createConfig Zod4 (exampleSchema Zod4) (<[ "host" := EmptyString ]> validMetadata)
      (<[ EmptyString := JStr "intruder" ]> exampleEnv) =
    createConfig Zod4 (exampleSchema Zod4) (delete "host" (<[ "host" := EmptyString ]> validMetadata))
      (<[ EmptyString := JStr "intruder" ]> exampleEnv).
Proof.
  split; [reflexivity|]. split; [reflexivity|].
  apply (createConfig_empty_name Zod4 (exampleSchema Zod4)
           (<[ "host" := EmptyString ]> validMetadata)
           (<[ EmptyString := JStr "intruder" ]> exampleEnv) "host");
    reflexivity.
Defined.

(** * Further properties of the code *)

(** ** [coerceValue]: when it throws, what it returns *)

Lemma undefined_or_defined (v : JsVal) : v = JUndefined ∨ v ≠ JUndefined.
Proof. destruct v; auto. Qed.

Lemma coerceValue_defined_eq ver schema value :
  value ≠ JUndefined →
  coerceValue ver schema value =
  (kind ← getPrimitiveKind schema;
   match kind with
   | KNumber =>
       Normal (match coerceNumberSafeParse ver value with
               | Some data => JNum data
               | None => value
               end)
   | KBoolean =>
       l ← callToLowerCase value;
       let lower := trim l in
       Normal (if bool_decide (lower ∈ ["true"; "1"; "yes"]) then JBool true
               else if bool_decide (lower ∈ ["false"; "0"; "no"; ""]) then JBool false
               else value)
   | _ => Normal value
   end).
Proof.
  intros Hdef. destruct value; try done.
  all: try (unfold coerceValue; destruct (getPrimitiveKind schema) as [[]|]; cbn;
            try done; by repeat case_match).
  rewrite coerceValue_string_eq.
  destruct (getPrimitiveKind schema) as [[]|]; cbn; done.
Qed.

Lemma coerceNumberSafeParse_accepts ver value n :
  coerceNumberSafeParse ver value = Some n →
  n ≠ S754_nan ∧ (ver = Zod4 → ∀ s, n ≠ S754_infinity s).
Proof.
  unfold coerceNumberSafeParse.
  destruct (ToNumber value) as [s|s| |s m e]; try done.
  - intros [= <-]. by split.
  - destruct ver; [|done]. intros [= <-]. by split.
  - intros [= <-]. by split.
Qed.

(** [coerceValue] throws on one occasion only: a boolean field and a value
    that is neither a string nor [undefined]. *)
Lemma coerceValue_throws_iff ver schema value e :
  coerceValue ver schema value = Throw e ↔
  e = TypeError ∧ getPrimitiveKind schema = Normal KBoolean ∧ isEnvValue value = false.
Proof.
  destruct (undefined_or_defined value) as [->|Hdef].
  { simpl. split; [done|]. by intros (_ & _ & ?). }
  rewrite (coerceValue_defined_eq _ _ _ Hdef).
  destruct (getPrimitiveKind_returns schema) as [kind ->]. cbn.
  destruct kind; try (split; [done|by intros (_ & ? & _)]).
  destruct value; cbn; try done;
    try (split; [by intros [= <-]|by intros (-> & _ & _)]).
  split; [done|]. by intros (_ & _ & ?).
Qed.

(** What comes back is [undefined] exactly when the value was. *)
Lemma coerceValue_undefined_iff ver schema value r :
  coerceValue ver schema value = Normal r → (r = JUndefined ↔ value = JUndefined).
Proof.
  destruct (undefined_or_defined value) as [->|Hdef].
  { simpl. by intros [= <-]. }
  rewrite (coerceValue_defined_eq _ _ _ Hdef).
  destruct (getPrimitiveKind_returns schema) as [kind ->]. cbn.
  destruct kind.
  - destruct (coerceNumberSafeParse ver value); intros [= <-]; split; done.
  - destruct (callToLowerCase value) as [l|]; cbn; [|done].
    repeat case_bool_decide; intros [= <-]; split; done.
  - intros [= <-]. done.
  - intros [= <-]. done.
Qed.

(** X1.  A wrapper node with its inner node in place is transparent:
    [unwrapSchema], [getPrimitiveKind] and [coerceValue] give for the
    wrapper what they give for the node it wraps. *)
Theorem getPrimitiveKind_through_wrapper schema inner :
  wrappedNode schema = Some inner →
  unwrapSchema schema = unwrapSchema inner
  ∧ getPrimitiveKind schema = getPrimitiveKind inner
  ∧ ∀ ver value, coerceValue ver schema value = coerceValue ver inner value.
Proof.
  intros Hw.
  assert (Hu : unwrapSchema schema = unwrapSchema inner)
    by (by rewrite unwrapSchema_eq, Hw).
  assert (Hk : getPrimitiveKind schema = getPrimitiveKind inner)
    by (by rewrite !getPrimitiveKind_eq, Hu).
  repeat split; try done.
  intros ver value. unfold coerceValue. by rewrite Hk.
Qed.

Lemma getPrimitiveKind_through_wrapper_witness :
  wrappedNode (JObj [("_def", JObj [("typeName", JStr "ZodEffects");
                                    ("schema", Zod.node Zod3 Zod.boolean)])])
    = Some (Zod.node Zod3 Zod.boolean)
  ∧ getPrimitiveKind (JObj [("_def", JObj [("typeName", JStr "ZodEffects");
                                           ("schema", Zod.node Zod3 Zod.boolean)])])
    = getPrimitiveKind (Zod.node Zod3 Zod.boolean).
Proof.
  split; [reflexivity|].
  apply (getPrimitiveKind_through_wrapper
           (JObj [("_def", JObj [("typeName", JStr "ZodEffects");
                                 ("schema", Zod.node Zod3 Zod.boolean)])])
           (Zod.node Zod3 Zod.boolean)).
  reflexivity.
Defined.

Lemma lookupProp_elem key props :
  lookupProp key props ≠ JUndefined → ∃ k, (k, lookupProp key props) ∈ props.
Proof.
  induction props as [|[k v] rest IH]; simpl; [done|].
  destruct (String.eqb k key).
  - intros _. exists k. apply list_elem_of_here.
  - intros Hv. destruct (IH Hv) as [k' Hk']. exists k'. by apply list_elem_of_further.
Qed.

Lemma propOf_nested v key : truthy (propOf v key) = true → nestedIn (propOf v key) v.
Proof.
  destruct v as [| | | | |props]; simpl; try done. intros Ht.
  destruct (lookupProp_elem key props) as [k Hk].
  { intros Hu. by rewrite Hu in Ht. }
  eapply nested_property; [exact Hk|apply nested_here].
Qed.

Lemma nestedIn_trans a b c : nestedIn a b → nestedIn b c → nestedIn a c.
Proof.
  intros Hab Hbc. induction Hbc as [|r key v props Hin Hrv IH]; [done|].
  eapply nested_property; [exact Hin|by apply IH].
Qed.

Lemma wrappedNode_nested schema inner : wrappedNode schema = Some inner → nestedIn inner schema.
Proof.
  unfold wrappedNode.
  destruct (truthy schema); simpl; [|done].
  destruct (truthy (propOf schema "_def")) eqn:Hd; [|done].
  destruct (wrapperSlot _) as [slot|]; [|done].
  destruct (truthy (propOf _ slot)) eqn:Hi; [|done].
  intros [= <-].
  eapply nestedIn_trans; by apply propOf_nested.
Qed.

(** X2.  The node [unwrapSchema] returns is the node it was given or a
    value that sits inside it under its properties, at least two levels
    down, and it is never a wrapper that still has its inner node. *)
Theorem unwrapSchema_result schema r :
  unwrapSchema schema = Normal r →
  wrappedNode r = None
  ∧ nestedIn r schema
  ∧ (r = schema ∨ (S (S (height r)) ≤ height schema)%nat).
Proof.
  intros Hr. split; [by eapply unwrapSchema_innermost|].
  revert Hr.
  induction schema as [schema Hw|schema inner Hw IH] using wrapper_ind;
    rewrite unwrapSchema_eq, Hw.
  - intros [= <-]. split; [apply nested_here|by left].
  - intros Hr. destruct (IH Hr) as [Hnested Hheight]. split.
    + eapply nestedIn_trans; [exact Hnested|by apply wrappedNode_nested].
    + right. apply wrappedNode_height in Hw. destruct Hheight as [->|Hlt]; lia.
Qed.

Lemma unwrapSchema_result_witness :
  unwrapSchema (Zod.node Zod4 (Zod.optional (Zod.default (Zod.number []) JNull)))
    = Normal (Zod.node Zod4 (Zod.number []))
  ∧ nestedIn (Zod.node Zod4 (Zod.number []))
      (Zod.node Zod4 (Zod.optional (Zod.default (Zod.number []) JNull))).
Proof.
  split; [reflexivity|].
  apply (unwrapSchema_result
           (Zod.node Zod4 (Zod.optional (Zod.default (Zod.number []) JNull)))
           (Zod.node Zod4 (Zod.number []))).
  reflexivity.
Defined.

(** X3.  A descriptor that cannot be introspected ([null], [undefined],
    any falsy value, or a value whose [_def] is missing or falsy) is
    classified as other, and [coerceValue] returns every value unchanged
    for it. *)
Theorem getPrimitiveKind_opaque schema :
  truthy schema = false ∨ truthy (propOf schema "_def") = false →
  getPrimitiveKind schema = Normal KOther
  ∧ ∀ ver value, coerceValue ver schema value = Normal value.
Proof.
  intros Hopaque.
  assert (Hw : wrappedNode schema = None).
  { unfold wrappedNode. destruct Hopaque as [-> | ->]; [done|by rewrite andb_false_r]. }
  assert (Hk : getPrimitiveKind schema = Normal KOther).
  { rewrite getPrimitiveKind_eq, (unwrapSchema_fixed _ Hw). cbn. f_equal.
    unfold kindOfNode. destruct Hopaque as [-> | ->]; [done|by rewrite andb_false_r]. }
  split; [exact Hk|].
  intros ver value. unfold coerceValue. rewrite Hk. by destruct value.
Qed.

Lemma getPrimitiveKind_opaque_witness :
  (truthy JNull = false ∨ truthy (propOf JNull "_def") = false)
  ∧ getPrimitiveKind JNull = Normal KOther
  ∧ coerceValue Zod3 (JObj [("shape", JNull)]) (JStr "7") = Normal (JStr "7").
Proof.
  split; [by left|]. split.
  - apply (getPrimitiveKind_opaque JNull). by left.
  - apply (getPrimitiveKind_opaque (JObj [("shape", JNull)])). by right.
Defined.

(** X4.  The outcomes of [coerceValue] on a primitive value, that is
    [undefined], [null], a boolean, a number or a string, for every
    schema.  It throws in one case only, always a TypeError: the field is
    classified as boolean and the value is neither a string nor
    [undefined].  Otherwise it returns; the result is [undefined] exactly
    when the value is; and the result is the value itself, or a number
    that is not NaN (nor an infinity under release 4) on a number field,
    or a boolean on a boolean field given a string. *)
Theorem coerceValue_outcome ver schema value :
  (∀ props, value ≠ JObj props) →
  (coerceValue ver schema value = Throw TypeError
   ∧ getPrimitiveKind schema = Normal KBoolean ∧ isEnvValue value = false)
  ∨ ∃ r, coerceValue ver schema value = Normal r
       ∧ (r = JUndefined ↔ value = JUndefined)
       ∧ (r = value
          ∨ (∃ n, r = JNum n ∧ n ≠ S754_nan ∧ (ver = Zod4 → ∀ s, n ≠ S754_infinity s)
                  ∧ getPrimitiveKind schema = Normal KNumber)
          ∨ (∃ b s, r = JBool b ∧ value = JStr s
                    ∧ getPrimitiveKind schema = Normal KBoolean)).
Proof.
  intros _.
  destruct (coerceValue ver schema value) as [r|e] eqn:Hc.
  - right. exists r. split; [done|].
    split; [by eapply coerceValue_undefined_iff|].
    destruct (undefined_or_defined value) as [->|Hdef].
    { simpl in Hc. left. congruence. }
    rewrite (coerceValue_defined_eq _ _ _ Hdef) in Hc.
    destruct (getPrimitiveKind_returns schema) as [kind Hk]. rewrite Hk in Hc.
    cbn in Hc. destruct kind.
    + destruct (coerceNumberSafeParse ver value) as [n|] eqn:Hn;
        injection Hc as <-; [|by left].
      right. left. exists n. by destruct (coerceNumberSafeParse_accepts _ _ _ Hn).
    + destruct value; cbn in Hc; try done.
      repeat case_bool_decide; injection Hc as <-; [right; right; eauto..|by left].
    + left. congruence.
    + left. congruence.
  - left. by apply coerceValue_throws_iff in Hc as (-> & ? & ?).
Qed.

Lemma coerceValue_outcome_witness :
  (∀ props, JNull ≠ JObj props)
  ∧ coerceValue Zod3 (Zod.node Zod3 Zod.boolean) JNull = Throw TypeError
  ∧ coerceValue Zod3 (Zod.node Zod3 (Zod.number [])) JNull = Normal (JNum S754_pzero).
Proof.
  split; [discriminate|].
  destruct (coerceValue_outcome Zod3 (Zod.node Zod3 Zod.boolean) JNull)
    as [(Hthrow & _ & _)|(r & Hr & _)]; [discriminate| |discriminate].
  split; [exact Hthrow|reflexivity].
Defined.

(** ** The loop of [createConfig]: what it writes, what it reads, when it
    throws *)

Lemma coerceRawValue_undefined_iff ver schema raw r :
  coerceRawValue ver schema raw = Normal r → (r = Data JUndefined ↔ raw = Data JUndefined).
Proof.
  destruct raw as [value|b]; simpl.
  - destruct (coerceValue ver schema value) as [coerced|] eqn:Hc; cbn; [|done].
    intros [= <-]. pose proof (coerceValue_undefined_iff _ _ _ _ Hc) as Hiff.
    split; intros [= H]; f_equal; by apply Hiff.
  - destruct (getPrimitiveKind schema) as [[]|]; cbn; try done;
      intros [= <-]; split; done.
Qed.

(** The coercion of a value read from the environment throws on a boolean
    field given anything but a string or [undefined], and then only. *)
Lemma coerceRawValue_throws_iff ver schema raw e :
  coerceRawValue ver schema raw = Throw e ↔
  e = TypeError ∧ getPrimitiveKind schema = Normal KBoolean
  ∧ match raw with Data value => isEnvValue value = false | Native _ => True end.
Proof.
  destruct raw as [value|b]; simpl.
  - pose proof (coerceValue_throws_iff ver schema value e) as Hiff.
    destruct (coerceValue ver schema value) as [coerced|e']; cbn.
    + split; [done|]. intros H. by apply Hiff in H.
    + split; intros H.
      * injection H as ->. by apply Hiff.
      * apply Hiff in H. congruence.
  - destruct (getPrimitiveKind_returns schema) as [kind ->]. cbn.
    destruct kind; split; try done; try (by intros (_ & ? & _)).
    + by intros [= <-].
    + by intros (-> & _).
Qed.

Lemma candidateEntry_Some ver fieldSchemas metadata env key v :
  candidateEntry ver fieldSchemas metadata env key = Some v ↔
  ∃ name, envVarNameOf metadata key = Some name
    ∧ truthy (lookupProp key fieldSchemas) = true
    ∧ getMember env name ≠ Data JUndefined
    ∧ coerceRawValue ver (lookupProp key fieldSchemas) (getMember env name) = Normal v.
Proof.
  unfold candidateEntry. split.
  - destruct (envVarNameOf metadata key) as [name|]; [|done].
    destruct (truthy _) eqn:Ht; [|done].
    destruct (coerceRawValue _ _ _) as [r|] eqn:Hc; [|done].
    intros Hr. assert (r = v ∧ r ≠ Data JUndefined) as [-> Hdef].
    { destruct r as [[]|]; by simplify_eq. }
    exists name. repeat split; try done.
    intros Hraw. by apply (coerceRawValue_undefined_iff _ _ _ _ Hc) in Hraw.
  - intros (name & -> & -> & Hraw & Hc). rewrite Hc.
    assert (v ≠ Data JUndefined) as Hv.
    { intros ->. by apply Hraw, (coerceRawValue_undefined_iff _ _ _ _ Hc). }
    by destruct v as [[]|].
Qed.

Lemma getMember_env env name :
  map_Forall (λ _ v, isEnvValue v = true) env →
  match getMember env name with
  | Data value => isEnvValue value = true
  | Native b => env !! name = None ∧ inheritedMember name = Some b
  end.
Proof.
  intros Henv. unfold getMember.
  destruct (env !! name) as [v|] eqn:Hv; [by apply (Henv _ _ Hv)|].
  by destruct (inheritedMember name).
Qed.

Lemma createConfig_loop_env_ext ver fieldSchemas metadata env env' keys initial :
  (∀ key name, key ∈ keys → envVarNameOf metadata key = Some name →
               getMember env name = getMember env' name) →
  createConfig_loop ver fieldSchemas metadata env initial keys =
  createConfig_loop ver fieldSchemas metadata env' initial keys.
Proof.
  revert initial. induction keys as [|key rest IH]; intros initial Henv; simpl; [done|].
  assert (createConfig_iteration ver fieldSchemas metadata env initial key =
          createConfig_iteration ver fieldSchemas metadata env' initial key) as ->.
  { unfold createConfig_iteration.
    destruct (envVarNameOf metadata key) as [name|] eqn:Hm; [|done].
    by rewrite (Henv key name (list_elem_of_here _ _) Hm). }
  destruct (createConfig_iteration _ _ _ env' _ _); cbn; [|done].
  apply IH. intros k name Hk. apply Henv. by apply list_elem_of_further.
Qed.

(** With a typed environment and a plain candidate object, an iteration
    throws exactly on an inherited read for a boolean field. *)
Lemma createConfig_iteration_throws_plain ver fieldSchemas metadata env initial key e :
  map_Forall (λ _ v, isEnvValue v = true) env →
  prototype initial = Native ObjectPrototype → key ≠ "__proto__" →
  createConfig_iteration ver fieldSchemas metadata env initial key = Throw e ↔
  e = TypeError ∧ inheritedBooleanRead fieldSchemas metadata env key.
Proof.
  intros Henv Hp Hk. rewrite createConfig_iteration_plain by done.
  unfold inheritedBooleanRead. split.
  - destruct (envVarNameOf metadata key) as [name|]; [|done].
    destruct (truthy _) eqn:Ht; [|done].
    destruct (coerceRawValue _ _ _) as [[[]|]|e'] eqn:Hc; try done.
    intros [= ->]. apply coerceRawValue_throws_iff in Hc as (-> & Hkind & Hraw).
    split; [done|]. pose proof (getMember_env env name Henv) as Hread.
    destruct (getMember env name) as [value|b]; [congruence|].
    destruct Hread as [Hnone Hb]. by exists name, b.
  - intros (-> & name & b & -> & Hnone & Hb & -> & Hkind).
    assert (getMember env name = Native b) as ->
      by (unfold getMember; by rewrite Hnone, Hb).
    simpl. by rewrite Hkind.
Qed.

Lemma createConfig_loop_throws_plain ver fieldSchemas metadata env keys initial e :
  map_Forall (λ _ v, isEnvValue v = true) env →
  prototype initial = Native ObjectPrototype → "__proto__" ∉ keys →
  createConfig_loop ver fieldSchemas metadata env initial keys = Throw e ↔
  e = TypeError ∧ ∃ key, key ∈ keys ∧ inheritedBooleanRead fieldSchemas metadata env key.
Proof.
  intros Henv. revert initial.
  induction keys as [|key rest IH]; intros initial Hp Hk; simpl.
  { split; [done|]. intros (_ & k & Hin & _). by apply elem_of_nil in Hin. }
  apply not_elem_of_cons in Hk as [Hne Hk].
  destruct (createConfig_iteration _ _ _ _ initial key) as [initial'|e'] eqn:Hit; cbn.
  - rewrite IH; [|by eapply createConfig_iteration_plain_prototype|done]. split.
    + intros (-> & k & Hin & Hread). split; [done|]. exists k.
      split; [by apply list_elem_of_further|done].
    + intros (-> & k & Hin & Hread). split; [done|].
      apply elem_of_cons in Hin as [->|Hin]; [|by exists k].
      assert (createConfig_iteration ver fieldSchemas metadata env initial key
              = Throw TypeError) as Hcontra
        by (by apply createConfig_iteration_throws_plain).
      congruence.
  - apply createConfig_iteration_throws_plain in Hit as (-> & Hread); [|done..]. split.
    + intros [= <-]. split; [done|]. exists key. split; [apply list_elem_of_here|done].
    + by intros (-> & _).
Qed.

(** X5.  The candidate object, entry by entry, for an environment of
    the declared type and when no field is named [__proto__].  It stays a
    plain object, and it holds a value for a field exactly when the field
    is declared in the shape with a truthy schema node, [metadata[key]] is
    truthy (an own non-empty name, or a member inherited from
    [Object.prototype], read through the string it converts to) and the
    environment read under that name is not [undefined]; the value is then
    the coerced one.  No entry is ever [undefined]. *)
Theorem candidateObject_entries ver schema metadata env candidate :
  map_Forall (λ _ v, isEnvValue v = true) env →
  "__proto__" ∉ objectKeys (shape schema) →
  candidateObject ver schema metadata env = Normal candidate →
  prototype candidate = Native ObjectPrototype
  ∧ (∀ key v,
       entries candidate !! key = Some v ↔
       key ∈ objectKeys (shape schema)
       ∧ ∃ name, envVarNameOf metadata key = Some name
           ∧ truthy (lookupProp key (shape schema)) = true
           ∧ getMember env name ≠ Data JUndefined
           ∧ coerceRawValue ver (lookupProp key (shape schema)) (getMember env name)
             = Normal v)
  ∧ ∀ key, entries candidate !! key ≠ Some (Data JUndefined).
Proof.
  intros _ Hproto Hc.
  assert (Hiff : ∀ key v,
       entries candidate !! key = Some v ↔
       key ∈ objectKeys (shape schema)
       ∧ ∃ name, envVarNameOf metadata key = Some name
           ∧ truthy (lookupProp key (shape schema)) = true
           ∧ getMember env name ≠ Data JUndefined
           ∧ coerceRawValue ver (lookupProp key (shape schema)) (getMember env name)
             = Normal v).
  { intros key v. rewrite <- candidateEntry_Some.
    destruct (decide (key = "__proto__")) as [->|Hne].
    - split; [|by intros [? _]]. intros Hv.
      by destruct (createConfig_loop_origin _ _ _ _ _ _ _ _ _ Hc Hv) as [?|[? _]].
    - rewrite (createConfig_loop_lookup _ _ _ _ _ _ _ key Hc Hne). simpl.
      rewrite lookup_empty. case_decide as Hin.
      + destruct (candidateEntry _ _ _ _ key); split; try done; by intros [_ ?].
      + split; [done|]. by intros [? _]. }
  split; [exact (createConfig_loop_plain_prototype ver (shape schema) metadata env
                   (objectKeys (shape schema)) emptyObject candidate eq_refl Hproto Hc)|].
  split; [exact Hiff|].
  intros key Hk. apply Hiff in Hk as (_ & name & _ & _ & Hraw & Hcoerce).
  by apply Hraw, (coerceRawValue_undefined_iff _ _ _ _ Hcoerce).
Qed.

Lemma candidateObject_entries_witness :
  map_Forall (λ _ v, isEnvValue v = true)
    ({[ "APP_PORT" := JStr "8080"; "APP_HOST" := JStr "ignored.example" ]} : gmap string JsVal)
  ∧ ("__proto__" ∉ objectKeys (shape (exampleSchema Zod3)))
  ∧ candidateObject Zod3 (exampleSchema Zod3) partialMetadata
      {[ "APP_PORT" := JStr "8080"; "APP_HOST" := JStr "ignored.example" ]}
    = Normal {| entries := {[ "port" := Data (JNum (b64_of_Z 8080)) ]};
                prototype := Native ObjectPrototype |}
  ∧ ({[ "port" := Data (JNum (b64_of_Z 8080)) ]} : gmap string Value) !! "host"
    ≠ Some (Data JUndefined).
Proof.
  assert (Hproto : "__proto__" ∉ objectKeys (shape (exampleSchema Zod3)))
    by (apply (bool_decide_unpack _); reflexivity).
  assert (Hc : candidateObject Zod3 (exampleSchema Zod3) partialMetadata
                 {[ "APP_PORT" := JStr "8080"; "APP_HOST" := JStr "ignored.example" ]}
               = Normal {| entries := {[ "port" := Data (JNum (b64_of_Z 8080)) ]};
                           prototype := Native ObjectPrototype |})
    by (vm_compute; reflexivity).
  assert (Henv : map_Forall (λ _ v, isEnvValue v = true)
                   ({[ "APP_PORT" := JStr "8080"; "APP_HOST" := JStr "ignored.example" ]}
                    : gmap string JsVal)).
  { repeat apply map_Forall_insert_2; try reflexivity. apply map_Forall_empty. }
  split; [exact Henv|]. split; [exact Hproto|]. split; [exact Hc|].
  destruct (candidateObject_entries Zod3 (exampleSchema Zod3) partialMetadata
              {[ "APP_PORT" := JStr "8080"; "APP_HOST" := JStr "ignored.example" ]}
              {| entries := {[ "port" := Data (JNum (b64_of_Z 8080)) ]};
                 prototype := Native ObjectPrototype |} Henv Hproto Hc)
    as (_ & _ & Hundefined).
  apply Hundefined.
Defined.

(** X6.  [createConfig] reads the environment under the property keys that
    [metadata[key]] yields for the declared fields (an own non-empty name,
    or the string an inherited member converts to), and nowhere else: two
    environments whose reads agree under those keys give the same
    candidate object and the same outcome. *)
Theorem createConfig_reads_mapped_names ver schema metadata env env' :
  (∀ key name, key ∈ objectKeys (shape schema) → envVarNameOf metadata key = Some name →
               getMember env name = getMember env' name) →
  candidateObject ver schema metadata env = candidateObject ver schema metadata env'
  ∧ createConfig ver schema metadata env = createConfig ver schema metadata env'.
Proof.
  intros Henv.
  assert (Hsame : candidateObject ver schema metadata env =
                  candidateObject ver schema metadata env')
    by (by apply createConfig_loop_env_ext).
  split; [exact Hsame|]. unfold createConfig. by rewrite Hsame.
Qed.

Lemma createConfig_reads_mapped_names_witness :
  createConfig Zod4 (exampleSchema Zod4) partialMetadata
    {[ "APP_PORT" := JStr "8080" ]}
  = createConfig Zod4 (exampleSchema Zod4) partialMetadata
      {[ "APP_PORT" := JStr "8080"; "APP_HOST" := JStr "ignored.example";
         "DEBUG" := JBool true ]}.
Proof.
  apply (createConfig_reads_mapped_names Zod4 (exampleSchema Zod4) partialMetadata
           {[ "APP_PORT" := JStr "8080" ]}
           {[ "APP_PORT" := JStr "8080"; "APP_HOST" := JStr "ignored.example";
              "DEBUG" := JBool true ]}).
  intros key name Hkey.
  apply elem_of_cons in Hkey as [->|Hkey];
    [|apply elem_of_cons in Hkey as [->|Hkey];
      [|apply elem_of_cons in Hkey as [->|Hkey]; [|by apply elem_of_nil in Hkey]]].
  - intros [= <-]. reflexivity.
  - intros Hname. vm_compute in Hname. discriminate.
  - intros Hname. vm_compute in Hname. discriminate.
Defined.

(** X7.  [createConfig] reads the mapping at the declared fields only: an
    entry of the mapping for a key the shape does not declare changes
    neither the candidate object nor the outcome. *)
Theorem createConfig_ignores_undeclared_keys ver schema metadata metadata' env :
  (∀ key, key ∈ objectKeys (shape schema) → metadata !! key = metadata' !! key) →
  candidateObject ver schema metadata env = candidateObject ver schema metadata' env
  ∧ createConfig ver schema metadata env = createConfig ver schema metadata' env.
Proof.
  intros Hmeta.
  assert (Hsame : candidateObject ver schema metadata env =
                  candidateObject ver schema metadata' env).
  { apply createConfig_loop_ext. intros key Hkey. unfold envVarNameOf.
    by rewrite (Hmeta key Hkey). }
  split; [exact Hsame|]. unfold createConfig. by rewrite Hsame.
Qed.

Lemma createConfig_ignores_undeclared_keys_witness :
  createConfig Zod3 (exampleSchema Zod3) validMetadata exampleEnv
  = createConfig Zod3 (exampleSchema Zod3) (<[ "extra" := "EXTRA_VAR" ]> validMetadata)
      exampleEnv.
Proof.
  apply (createConfig_ignores_undeclared_keys Zod3 (exampleSchema Zod3) validMetadata
           (<[ "extra" := "EXTRA_VAR" ]> validMetadata) exampleEnv).
  intros key Hkey.
  apply elem_of_cons in Hkey as [->|Hkey];
    [|apply elem_of_cons in Hkey as [->|Hkey];
      [|apply elem_of_cons in Hkey as [->|Hkey]; [|by apply elem_of_nil in Hkey]]];
    reflexivity.
Defined.

(** X8.  With an environment of the declared type and no field named
    [__proto__], the loop of [createConfig] fails in one way only.  It
    throws exactly when some declared field of boolean kind is read under
    a name, own or inherited, that has no own entry in the environment and
    is the name of a member of [Object.prototype]; what it throws is a
    TypeError, and [createConfig] throws it without calling the
    validator. *)
Theorem candidateObject_throws ver schema metadata env :
  map_Forall (λ _ v, isEnvValue v = true) env →
  "__proto__" ∉ objectKeys (shape schema) →
  (∀ e, candidateObject ver schema metadata env = Throw e ↔
        e = TypeError
        ∧ ∃ key, key ∈ objectKeys (shape schema)
                 ∧ inheritedBooleanRead (shape schema) metadata env key)
  ∧ ((∃ key, key ∈ objectKeys (shape schema)
             ∧ inheritedBooleanRead (shape schema) metadata env key) →
     createConfig ver schema metadata env = Throw TypeError).
Proof.
  intros Henv Hproto.
  split; [intros e; by apply (createConfig_loop_throws_plain ver (shape schema) metadata env
                              (objectKeys (shape schema)) emptyObject)|].
  intros Hthrow. unfold createConfig.
  assert (candidateObject ver schema metadata env = Throw TypeError) as ->; [|done].
  by apply (createConfig_loop_throws_plain ver (shape schema) metadata env
              (objectKeys (shape schema)) emptyObject).
Qed.

Lemma candidateObject_throws_witness :
  map_Forall (λ _ v, isEnvValue v = true) ({[ "APP_PORT" := JStr "3000" ]} : gmap string JsVal)
  ∧ ("__proto__" ∉ objectKeys (shape (exampleSchema Zod4)))
  ∧ createConfig Zod4 (exampleSchema Zod4) (<[ "debug" := "valueOf" ]> validMetadata)
      {[ "APP_PORT" := JStr "3000" ]} = Throw TypeError.
Proof.
  assert (Henv : map_Forall (λ _ v, isEnvValue v = true)
                   ({[ "APP_PORT" := JStr "3000" ]} : gmap string JsVal))
    by (by apply map_Forall_singleton).
  assert (Hproto : "__proto__" ∉ objectKeys (shape (exampleSchema Zod4)))
    by (apply (bool_decide_unpack _); reflexivity).
  split; [exact Henv|]. split; [exact Hproto|].
  apply (candidateObject_throws Zod4 (exampleSchema Zod4)
           (<[ "debug" := "valueOf" ]> validMetadata)
           {[ "APP_PORT" := JStr "3000" ]} Henv Hproto).
  exists "debug". split; [unfold objectKeys; simpl; rewrite !elem_of_cons; tauto|].
  exists "valueOf", (NativeFunction "valueOf"). repeat split.
Defined.

(** ** White space around a value *)

Lemma isBlank_app a b : isBlank (a +:+ b) = isBlank a && isBlank b.
Proof. induction a as [|c a IH]; simpl; [done|]. by rewrite IH, andb_assoc. Qed.

Lemma trimStart_app_blank w s : isBlank w = true → trimStart (w +:+ s) = trimStart s.
Proof.
  induction w as [|c w IH]; simpl; [done|].
  intros [Hc Hw]%andb_prop. rewrite Hc. auto.
Qed.

Lemma trimStart_app_nonblank s w :
  isBlank s = false → trimStart (s +:+ w) = trimStart s +:+ w.
Proof.
  induction s as [|c s IH]; simpl; [done|].
  destruct (isWhiteSpace c); simpl; [exact IH|done].
Qed.

Lemma trimEnd_blank w : isBlank w = true → trimEnd w = EmptyString.
Proof.
  induction w as [|c w IH]; simpl; [done|].
  intros [Hc Hw]%andb_prop. by rewrite (IH Hw), Hc.
Qed.

Lemma trimEnd_app_blank s w : isBlank w = true → trimEnd (s +:+ w) = trimEnd s.
Proof.
  intros Hw. induction s as [|c s IH]; simpl; [by apply trimEnd_blank|].
  by rewrite IH.
Qed.

Lemma trim_padded before s after :
  isBlank before = true → isBlank after = true →
  trim (before +:+ s +:+ after) = trim s.
Proof.
  intros Hb Ha. unfold trim. rewrite (trimStart_app_blank _ _ Hb).
  destruct (isBlank s) eqn:Hs.
  - rewrite !trimStart_blank; [done..|]. by rewrite isBlank_app, Hs, Ha.
  - by rewrite (trimStart_app_nonblank _ _ Hs), (trimEnd_app_blank _ _ Ha).
Qed.

Lemma toLowerCase_app a b : toLowerCase (a +:+ b) = toLowerCase a +:+ toLowerCase b.
Proof. induction a as [|c a IH]; simpl; [done|]. by rewrite IH. Qed.

Lemma isWhiteSpace_toLowerChar c : isWhiteSpace (toLowerChar c) = isWhiteSpace c.
Proof. by destruct c as [[] [] [] [] [] [] [] []]. Qed.

Lemma isBlank_toLowerCase s : isBlank (toLowerCase s) = isBlank s.
Proof.
  induction s as [|c s IH]; simpl; [done|].
  by rewrite IH, isWhiteSpace_toLowerChar.
Qed.

(** X9.  White space around a value does not change a conversion: when
    [coerceValue] turns a string into a number or a boolean, it turns the
    same string with white space added before and after into the same
    number or boolean. *)
Theorem coerceValue_padding ver schema value before after r :
  isBlank before = true → isBlank after = true →
  coerceValue ver schema (JStr value) = Normal r → r ≠ JStr value →
  coerceValue ver schema (JStr (before +:+ value +:+ after)) = Normal r.
Proof.
  intros Hb Ha. rewrite !coerceValue_string_eq.
  destruct (getPrimitiveKind schema) as [[]|]; cbn; try congruence.
  - unfold coerceNumberSafeParse, ToNumber, StringToNumber.
    rewrite (trim_padded _ _ _ Hb Ha).
    match goal with
    | |- context [match ?n with S754_nan => None | _ => _ end] =>
        destruct n as [| | |]; try congruence
    end.
    destruct ver; congruence.
  - rewrite !toLowerCase_app, trim_padded by (by rewrite isBlank_toLowerCase).
    repeat case_bool_decide; congruence.
Qed.

Lemma coerceValue_padding_witness :
  isBlank " " = true
  ∧ coerceValue Zod3 (Zod.node Zod3 (Zod.number [])) (JStr "8080") =
      Normal (JNum (b64_of_Z 8080))
  ∧ coerceValue Zod3 (Zod.node Zod3 (Zod.number [])) (JStr (" " +:+ "8080" +:+ " ")) =
      Normal (JNum (b64_of_Z 8080)).
Proof.
  split; [reflexivity|]. split; [reflexivity|].
  apply (coerceValue_padding Zod3 (Zod.node Zod3 (Zod.number [])) "8080" " " " "
           (JNum (b64_of_Z 8080))); [reflexivity..|discriminate].
Defined.

(** ** Decimal integers *)

Lemma shr_1_nonneg mrs : 0 ≤ shr_m mrs → 0 ≤ shr_m (shr_1 mrs).
Proof. destruct mrs as [[|[p|p|]|[p|p|]] r s]; simpl; lia. Qed.

Lemma iter_pos_shr_1_nonneg p mrs : 0 ≤ shr_m mrs → 0 ≤ shr_m (SpecFloat.iter_pos shr_1 p mrs).
Proof.
  revert mrs. induction p as [p IH|p IH|]; intros mrs Hm; simpl.
  - by apply IH, IH, shr_1_nonneg.
  - by apply IH, IH.
  - by apply shr_1_nonneg.
Qed.

Lemma shr_fexp_nonneg prec emax m e l :
  0 ≤ m → 0 ≤ shr_m (shr_fexp prec emax m e l).1.
Proof.
  intros Hm. unfold shr_fexp, shr.
  assert (0 ≤ shr_m (shr_record_of_loc m l)) by (by destruct l as [|[]]).
  destruct (_ - e); simpl; [done| |done]. by apply iter_pos_shr_1_nonneg.
Qed.

Lemma binary_round_aux_not_nan prec emax sx mx ex lx :
  0 ≤ mx → binary_round_aux prec emax sx mx ex lx ≠ S754_nan.
Proof.
  intros Hm. unfold binary_round_aux.
  pose proof (shr_fexp_nonneg prec emax mx ex lx Hm) as H1.
  destruct (shr_fexp prec emax mx ex lx) as [mrs' e']. simpl in H1.
  assert (0 ≤ round_nearest_even (shr_m mrs') (loc_of_shr_record mrs')) as H2.
  { unfold round_nearest_even.
    destruct (loc_of_shr_record mrs') as [|[]]; try lia. destruct (Z.even _); lia. }
  pose proof (shr_fexp_nonneg prec emax _ e' loc_Exact H2) as H3.
  destruct (shr_fexp prec emax _ e' loc_Exact) as [mrs'' e'']. simpl in H3.
  destruct (shr_m mrs''); [done| |lia]. by destruct (_ <=? _).
Qed.

(** The binary64 nearest to an integer is a number. *)
Lemma b64_of_Z_not_nan z : b64_of_Z z ≠ S754_nan.
Proof.
  unfold b64_of_Z, binary_normalize, binary_round.
  destruct z as [|p|p]; [done|..];
    destruct (shl_align _ _ _) as [mz ez]; by apply binary_round_aux_not_nan.
Qed.

Lemma digitValue_10_cases c d :
  digitValue 10 c = Some d →
  0 ≤ d < 10 ∧ isWhiteSpace c = false
  ∧ (c = "0" ∨ c = "1" ∨ c = "2" ∨ c = "3" ∨ c = "4"
     ∨ c = "5" ∨ c = "6" ∨ c = "7" ∨ c = "8" ∨ c = "9")%char.
Proof.
  destruct c as [[] [] [] [] [] [] [] []]; intros Hd; vm_compute in Hd;
    try discriminate; injection Hd as <-;
    (split; [lia|split; [reflexivity|]]);
    repeat first [reflexivity | left; reflexivity | right].
Qed.

Lemma readDigits_decimal s acc len :
  isDecimalDigits s = true →
  readDigits 10 s acc len =
    (decimalValue acc s, len + Z.of_nat (String.length s), EmptyString).
Proof.
  revert acc len. induction s as [|c s IH]; intros acc len; simpl.
  { intros _. do 2 f_equal. lia. }
  destruct (digitValue 10 c); [|done]. intros Hs. rewrite (IH _ _ Hs).
  do 2 f_equal. lia.
Qed.

Lemma decimalValue_nonneg s acc : 0 ≤ acc → 0 ≤ decimalValue acc s.
Proof.
  revert acc. induction s as [|c s IH]; intros acc Hacc; simpl; [done|].
  destruct (digitValue 10 c) as [d|] eqn:Hd; [|done].
  apply IH. apply digitValue_10_cases in Hd. lia.
Qed.

Lemma trimEnd_decimal s : isDecimalDigits s = true → trimEnd s = s.
Proof.
  induction s as [|c s IH]; simpl; [done|].
  destruct (digitValue 10 c) as [d|] eqn:Hd; [|done].
  intros Hs. rewrite (IH Hs).
  apply digitValue_10_cases in Hd as (_ & -> & _). by destruct s.
Qed.

Lemma trim_decimal s : isDecimalDigits s = true → trim s = s.
Proof.
  intros Hs. unfold trim.
  assert (trimStart s = s) as ->; [|by apply trimEnd_decimal].
  destruct s as [|c s]; simpl in *; [done|].
  destruct (digitValue 10 c) as [d|] eqn:Hd; [|done].
  by apply digitValue_10_cases in Hd as (_ & -> & _).
Qed.

Lemma roundDecimal_integer z : 0 ≤ z → roundDecimal false z 0 = b64_of_Z z.
Proof.
  destruct z as [|p|p]; [done| |lia]. intros _.
  unfold roundDecimal, b64_of_Z, binary_normalize. simpl. by rewrite Pos.mul_1_r.
Qed.

(** [Number] on a non-empty string of decimal digits. *)
Lemma StringToNumber_decimal s :
  s ≠ EmptyString → isDecimalDigits s = true →
  StringToNumber s = b64_of_Z (decimalValue 0 s).
Proof.
  intros Hne Hs.
  assert (Hunsigned : StrUnsignedDecimalLiteral false s = b64_of_Z (decimalValue 0 s)).
  { unfold StrUnsignedDecimalLiteral.
    assert (String.eqb s "Infinity" = false) as ->.
    { destruct s as [|c s]; [done|]. simpl in Hs.
      destruct (digitValue 10 c) as [d|] eqn:Hd; [|done].
      apply digitValue_10_cases in Hd as (_ & _ & Hc).
      destruct Hc as [->|[->|[->|[->|[->|[->|[->|[->|[->| ->]]]]]]]]]; done. }
    rewrite (readDigits_decimal _ _ _ Hs). simpl.
    assert ((0 + Z.of_nat (String.length s) + 0 =? 0) = false) as ->.
    { apply Z.eqb_neq. destruct s; [done|]. simpl. lia. }
    rewrite Z.sub_0_r. apply roundDecimal_integer. by apply decimalValue_nonneg. }
  unfold StringToNumber. rewrite (trim_decimal _ Hs).
  destruct s as [|c s]; [done|]. simpl in Hs.
  destruct (digitValue 10 c) as [d|] eqn:Hd; [|done].
  apply digitValue_10_cases in Hd as (_ & _ & Hc).
  destruct Hc as [->|[->|[->|[->|[->|[->|[->|[->|[->| ->]]]]]]]]];
    try exact Hunsigned.
  destruct s as [|c2 s]; [exact Hunsigned|]. simpl in Hs.
  destruct (digitValue 10 c2) as [d2|] eqn:Hd2; [|done].
  apply digitValue_10_cases in Hd2 as (_ & _ & Hc2).
  destruct Hc2 as [->|[->|[->|[->|[->|[->|[->|[->|[->| ->]]]]]]]]];
    exact Hunsigned.
Qed.

(** X10.  On a field classified as number, a non-empty string of decimal
    digits is coerced to the binary64 number nearest to the integer it
    writes, leading zeros included; the one exception is an integer so
    large that it rounds to infinity, which release 4 of the validator
    rejects, so that the string is kept. *)
Theorem coerceValue_decimal_digits ver schema digits :
  getPrimitiveKind schema = Normal KNumber →
  digits ≠ EmptyString → isDecimalDigits digits = true →
  coerceValue ver schema (JStr digits) =
    Normal (match ver, b64_of_Z (decimalValue 0 digits) with
            | Zod4, S754_infinity _ => JStr digits
            | _, n => JNum n
            end).
Proof.
  intros Hkind Hne Hdigits. rewrite coerceValue_string_eq, Hkind. cbn.
  unfold coerceNumberSafeParse, ToNumber.
  rewrite (StringToNumber_decimal _ Hne Hdigits).
  pose proof (b64_of_Z_not_nan (decimalValue 0 digits)) as Hnan.
  destruct (b64_of_Z (decimalValue 0 digits)); by destruct ver.
Qed.

Lemma coerceValue_decimal_digits_witness :
  getPrimitiveKind (Zod.node Zod4 (Zod.number [Zod.int; Zod.positive])) = Normal KNumber
  ∧ coerceValue Zod4 (Zod.node Zod4 (Zod.number [Zod.int; Zod.positive])) (JStr "008080") =
      Normal (JNum (b64_of_Z 8080)).
Proof.
  split; [reflexivity|].
  apply (coerceValue_decimal_digits Zod4
           (Zod.node Zod4 (Zod.number [Zod.int; Zod.positive])) "008080");
    [reflexivity|discriminate|reflexivity].
Defined.

(** ** What reaches the validator *)

(** X11.  A variable set to an empty or blank string is not an unset
    variable: a field not named [__proto__] that is mapped to it gets an
    entry in the candidate object, the number [+0] on a number field,
    [false] on a boolean field and the string itself on any other
    field. *)
Theorem candidateObject_blank_value ver schema metadata env candidate key name value kind :
  candidateObject ver schema metadata env = Normal candidate →
  key ∈ objectKeys (shape schema) → key ≠ "__proto__" →
  metadata !! key = Some name → name ≠ EmptyString →
  truthy (lookupProp key (shape schema)) = true →
  getPrimitiveKind (lookupProp key (shape schema)) = Normal kind →
  env !! name = Some (JStr value) → isBlank value = true →
  entries candidate !! key = Some (Data (match kind with
                                         | KNumber => JNum S754_pzero
                                         | KBoolean => JBool false
                                         | _ => JStr value
                                         end)).
Proof.
  intros Hc Hkey Hproto Hmeta Hname Hnode Hkind Henv Hblank.
  rewrite (createConfig_loop_lookup _ _ _ _ _ _ _ key Hc Hproto).
  rewrite decide_True by done.
  assert (candidateEntry ver (shape schema) metadata env key =
          Some (Data (match kind with
                      | KNumber => JNum S754_pzero
                      | KBoolean => JBool false
                      | _ => JStr value
                      end))) as ->; [|by destruct kind].
  apply candidateEntry_Some. exists name.
  assert (getMember env name = Data (JStr value)) as ->
    by (unfold getMember; by rewrite Henv).
  split; [by apply envVarNameOf_own|]. repeat split; try done.
  unfold coerceRawValue. rewrite coerceValue_string_eq, Hkind. cbn.
  destruct kind; try done.
  - unfold coerceNumberSafeParse, ToNumber, StringToNumber.
    by rewrite (trim_blank _ Hblank).
  - by rewrite trim_blank by (by rewrite isBlank_toLowerCase).
Qed.

Lemma candidateObject_blank_value_witness :
  candidateObject Zod3 (exampleSchema Zod3) validMetadata {[ "DEBUG" := JStr " " ]}
    = Normal {| entries := {[ "debug" := Data (JBool false) ]};
                prototype := Native ObjectPrototype |}
  ∧ entries {| entries := {[ "debug" := Data (JBool false) ]};
               prototype := Native ObjectPrototype |} !! "debug"
    = Some (Data (JBool false)).
Proof.
  split; [vm_compute; reflexivity|].
  apply (candidateObject_blank_value Zod3 (exampleSchema Zod3) validMetadata
           {[ "DEBUG" := JStr " " ]}
           {| entries := {[ "debug" := Data (JBool false) ]};
              prototype := Native ObjectPrototype |}
           "debug" "DEBUG" " " KBoolean);
    try reflexivity; try discriminate.
  unfold objectKeys, exampleSchema, exampleFields. simpl.
  rewrite !elem_of_cons. tauto.
Defined.

(** X12.  With an environment of the declared type, every entry of the
    candidate object is a string, a number other than NaN, or a boolean,
    or else a member of [Object.prototype]; the last happens only when
    the field is read under a name that has no own entry in the
    environment and is the name of such a member. *)
Theorem candidateObject_value_kinds ver schema metadata env candidate key v :
  map_Forall (λ _ v, isEnvValue v = true) env →
  candidateObject ver schema metadata env = Normal candidate →
  entries candidate !! key = Some v →
  (∃ s, v = Data (JStr s)) ∨ (∃ n, v = Data (JNum n) ∧ n ≠ S754_nan)
  ∨ (∃ b, v = Data (JBool b))
  ∨ (∃ name b, v = Native b ∧ envVarNameOf metadata key = Some name
               ∧ env !! name = None ∧ inheritedMember name = Some b).
Proof.
  intros Henv Hc Hv.
  destruct (createConfig_loop_origin _ _ _ _ _ _ _ _ _ Hc Hv) as [?|[_ Hentry]]; [done|].
  apply candidateEntry_Some in Hentry as (name & Hname & _ & Hraw & Hcoerce).
  pose proof (getMember_env env name Henv) as Htyped.
  destruct (getMember env name) as [[| | | |raw|]|b]; try done.
  - unfold coerceRawValue in Hcoerce. rewrite coerceValue_string_eq in Hcoerce.
    destruct (getPrimitiveKind_returns (lookupProp key (shape schema))) as [kind Hk].
    rewrite Hk in Hcoerce. cbn in Hcoerce. destruct kind.
    + destruct (coerceNumberSafeParse ver (JStr raw)) as [n|] eqn:Hn;
        injection Hcoerce as <-; [|by eauto].
      right. left. exists n. by destruct (coerceNumberSafeParse_accepts _ _ _ Hn).
    + repeat case_bool_decide; injection Hcoerce as <-; eauto.
    + injection Hcoerce as <-. eauto.
    + injection Hcoerce as <-. eauto.
  - destruct Htyped as [Hnone Hb]. simpl in Hcoerce.
    destruct (getPrimitiveKind _) as [[]|]; cbn in Hcoerce; try done;
      injection Hcoerce as <-; right; right; right; by exists name, b.
Qed.

Lemma candidateObject_value_kinds_witness :
  map_Forall (λ _ v, isEnvValue v = true) (∅ : gmap string JsVal)
  ∧ candidateObject Zod3 (exampleSchema Zod3) (<[ "host" := "valueOf" ]> partialMetadata) ∅
    = Normal {| entries := {[ "host" := Native (NativeFunction "valueOf") ]};
                prototype := Native ObjectPrototype |}
  ∧ ∃ name b, Native (NativeFunction "valueOf") = Native b
      ∧ envVarNameOf (<[ "host" := "valueOf" ]> partialMetadata) "host" = Some name
      ∧ (∅ : gmap string JsVal) !! name = None ∧ inheritedMember name = Some b.
Proof.
  assert (Hc : candidateObject Zod3 (exampleSchema Zod3)
                 (<[ "host" := "valueOf" ]> partialMetadata) ∅
               = Normal {| entries := {[ "host" := Native (NativeFunction "valueOf") ]};
                           prototype := Native ObjectPrototype |})
    by (vm_compute; reflexivity).
  split; [apply map_Forall_empty|]. split; [exact Hc|].
  destruct (candidateObject_value_kinds Zod3 (exampleSchema Zod3)
              (<[ "host" := "valueOf" ]> partialMetadata) ∅
              {| entries := {[ "host" := Native (NativeFunction "valueOf") ]};
                 prototype := Native ObjectPrototype |}
              "host" (Native (NativeFunction "valueOf")) (map_Forall_empty _) Hc eq_refl)
    as [[s Hs]|[[n [Hn _]]|[[b Hb]|Hnative]]]; try discriminate.
  exact Hnative.
Defined.

(** X13.  On names that are not those of members of [Object.prototype],
    the loop behaves as the guard [if (!envVarName) continue] suggests.
    When the environment has the declared type, no declared field and no
    variable name the mapping gives to a declared field is named like a
    member of [Object.prototype], the loop completes, the candidate stays
    a plain object, [createConfig] returns or throws what the validator's
    [parse] returns or throws on it, and a field without an entry in the
    mapping has no entry in the candidate object. *)
Theorem createConfig_plain_names ver schema metadata env :
  map_Forall (λ _ v, isEnvValue v = true) env →
  (∀ key, key ∈ objectKeys (shape schema) → inheritedMember key = None) →
  (∀ key name, key ∈ objectKeys (shape schema) → metadata !! key = Some name →
               inheritedMember name = None) →
  ∃ candidate,
    candidateObject ver schema metadata env = Normal candidate
    ∧ prototype candidate = Native ObjectPrototype
    ∧ createConfig ver schema metadata env = parse schema candidate
    ∧ ∀ key, key ∈ objectKeys (shape schema) → metadata !! key = None →
             entries candidate !! key = None.
Proof.
  intros Henv Hfields Hnames.
  assert (Hproto : "__proto__" ∉ objectKeys (shape schema)).
  { intros Hin. by specialize (Hfields _ Hin). }
  destruct (candidateObject ver schema metadata env) as [candidate|e] eqn:Hc.
  - exists candidate. split; [done|].
    split; [exact (createConfig_loop_plain_prototype ver (shape schema) metadata env
                     (objectKeys (shape schema)) emptyObject candidate eq_refl Hproto Hc)|].
    split; [unfold createConfig; by rewrite Hc|].
    intros key Hkey Hnone.
    rewrite (createConfig_loop_skipped ver (shape schema) metadata env
               (objectKeys (shape schema)) emptyObject candidate key); [done| |exact Hc].
    unfold envVarNameOf. by rewrite Hnone, (Hfields key Hkey).
  - exfalso.
    apply (createConfig_loop_throws_plain ver (shape schema) metadata env
             (objectKeys (shape schema)) emptyObject e Henv eq_refl Hproto) in Hc
      as (_ & key & Hkey & name & b & Hname & _ & Hb & _).
    apply envVarNameOf_Some in Hname as [[Hown _]|[_ (b' & Hb' & _)]].
    + by rewrite (Hnames key name Hkey Hown) in Hb.
    + by rewrite (Hfields key Hkey) in Hb'.
Qed.

Lemma createConfig_plain_names_witness :
  map_Forall (λ _ v, isEnvValue v = true) exampleEnv
  ∧ ∃ candidate,
      candidateObject Zod4 (exampleSchema Zod4) validMetadata exampleEnv = Normal candidate
      ∧ createConfig Zod4 (exampleSchema Zod4) validMetadata exampleEnv
        = parse (exampleSchema Zod4) candidate.
Proof.
  assert (Henv : map_Forall (λ _ v, isEnvValue v = true) exampleEnv).
  { unfold exampleEnv. repeat apply map_Forall_insert_2; try reflexivity.
    apply map_Forall_empty. }
  split; [exact Henv|].
  destruct (createConfig_plain_names Zod4 (exampleSchema Zod4) validMetadata exampleEnv Henv)
    as (candidate & Hc & _ & Hparse & _).
  - intros key Hkey.
    apply elem_of_cons in Hkey as [->|Hkey];
      [|apply elem_of_cons in Hkey as [->|Hkey];
        [|apply elem_of_cons in Hkey as [->|Hkey]; [|by apply elem_of_nil in Hkey]]];
      reflexivity.
  - intros key name Hkey.
    apply elem_of_cons in Hkey as [->|Hkey];
      [|apply elem_of_cons in Hkey as [->|Hkey];
        [|apply elem_of_cons in Hkey as [->|Hkey]; [|by apply elem_of_nil in Hkey]]];
      intros [= <-]; reflexivity.
  - by exists candidate.
Defined.
